(** * Query safety validation engine of the Pocket Network MCP server

    A shallow embedding of the safety checks of
    [src/handlers/transaction-handlers.ts] (the part headed "Enhanced Safety
    Checks for Pocket Network MCP"): [isDangerousMethod], [checkBlockQuery],
    [checkLogQuery], [validateRPCCall], [isTransactionHistoryQuery] and
    [validateNaturalLanguageQuery], together with the fragment of ECMAScript
    they run on.

    The validators are written against [any[]] parameters, so what they do
    is decided by the language's coercions: truthiness, [typeof],
    [parseInt(_, 16)], the binary [-] and [>] operators, template literals
    and [RegExp.prototype.test].  Those are modelled here after ECMA-262:

    - a Number is an IEEE 754 binary64 value ([spec_float] with precision 53
      and maximal exponent 1024), so [NaN], the infinities, both zeros and
      rounding are the real ones ([spec_float] also has finite values that
      are not in canonical form; what is proved for every Number holds for
      those as well);
    - a String is a sequence of 16-bit code units, held here as bytes: each
      code unit is written as UTF-8 writes a character, on one byte below
      U+0080, on two below U+0800 and on three from there on, a surrogate
      being a code unit like any other; the four-byte UTF-8 form of a
      character outside the Basic Multilingual Plane is read as well and
      stands for its two surrogates.  So a text in UTF-8 is a String as it
      is, and concatenating two Strings concatenates their bytes.  What is
      proved for every [string] holds in particular for every sequence of
      bytes that spells a String;
    - values are the ones JSON can carry, [undefined], and BigInt; every
      property of an object is data, so an object with an own [toString]
      property cannot be converted to a primitive: the conversion throws,
      and so does [JSON.stringify] on a BigInt.  Symbols and functions are
      outside the value type;
    - an abrupt completion is a value of [completion], and [try]/[catch] is
      [try_catch]. *)

From Stdlib Require Import ZArith String Ascii List Bool Lia SpecFloat DecimalString HexString.
From stdpp Require Import gmap strings list.

#[local] Set Warnings "-register-all".
#[local] Open Scope Z_scope.

(* ===================================================================== *)
(** * Numbers: ECMAScript Number values                                   *)
(* ===================================================================== *)

Module Number.

Definition number : Type := spec_float.
Definition prec : Z := 53.
Definition emax : Z := 1024.

Definition NaN : number := S754_nan.
Definition Infinity : number := S754_infinity false.
Definition zero : number := S754_zero false.

(** The Number value for a mathematical integer (round to nearest, ties
    to even). *)
Definition of_Z (z : Z) : number := binary_normalize prec emax z 0 false.

(** The Number value for [m * 10^e], [0 <= m]. *)
Definition of_decimal (m e : Z) : number :=
  match m with
  | Zpos p =>
      if 0 <=? e then binary_normalize prec emax (Zpos p * 10 ^ e) 0 false
      else
        let '(q, e', l) := SFdiv_core_binary prec emax (Zpos p) 0 (10 ^ (- e)) 0 in
        binary_round_aux prec emax false q e' l
  | _ => zero
  end.

Definition negate (neg : bool) (x : number) : number := if neg then SFopp x else x.

(** Number::subtract and Number::lessThan ([false] where the
    specification answers [undefined], i.e. on [NaN]). *)
Definition subtract (x y : number) : number := SFsub prec emax x y.
Definition lessThan (x y : number) : bool := SFltb x y.

(** [x < z] for a Number [x] and a mathematical integer [z]: the mixed
    Number/BigInt case of IsLessThan, an exact comparison. *)
Definition lessThan_integer (x : number) (z : Z) : bool :=
  match x with
  | S754_nan => false
  | S754_infinity s => s
  | S754_zero _ => 0 <? z
  | S754_finite s m e =>
      let v := if s then Zneg m else Zpos m in
      if 0 <=? e then v * 2 ^ e <? z else v <? z * 2 ^ (- e)
  end.

(** ToBoolean on a Number: [+0], [-0] and [NaN] are falsy. *)
Definition truthy (x : number) : bool :=
  match x with
  | S754_nan | S754_zero _ => false
  | _ => true
  end.

(** ** Number::toString (radix 10) *)

Definition decimal (z : Z) : string := NilEmpty.string_of_uint (N.to_uint (Z.to_N z)).
Definition digits10 (z : Z) : Z := Z.of_nat (String.length (decimal z)).
Definition zeros (n : Z) : string := string_of_list_ascii (repeat "0"%char (Z.to_nat n)).

(** A finite value [m * 2^e] as a fraction [p / q]. *)
Definition ratio (m : positive) (e : Z) : Z * Z :=
  if 0 <=? e then (Zpos m * 2 ^ e, 1) else (Zpos m, 2 ^ (- e)).

(** The [n] with [10^(n-1) <= p/q < 10^n]. *)
Definition magnitude10 (p q : Z) : Z :=
  if q <=? p then digits10 (p / q) else 1 - digits10 ((q - 1) / p).

(** The shortest digit string that reads back as [x]: the least [k] for
    which some [k]-digit [s] has [s * 10^(n-k)] round to [x], then the [s]
    nearest to [x] (the even one on a tie).  Seventeen digits always
    suffice for binary64, which bounds the search. *)
Fixpoint shortest (fuel : nat) (x : number) (p q n k : Z) : Z * Z :=
  let '(p', q') := if n <=? k then (p * 10 ^ (k - n), q) else (p, q * 10 ^ (n - k)) in
  let lo := p' / q' in
  let r := p' mod q' in
  let hi := lo + 1 in
  let ok_lo := SFeqb (of_decimal lo (n - k)) x in
  let ok_hi := SFeqb (of_decimal hi (n - k)) x in
  let nearer_lo := (2 * r <? q') || ((2 * r =? q') && Z.even lo) in
  match fuel with
  | O => (lo, n)
  | S fuel' =>
      if ok_lo && (negb ok_hi || nearer_lo) then (lo, n)
      else if ok_hi then (if hi =? 10 ^ k then (10 ^ (k - 1), n + 1) else (hi, n))
      else shortest fuel' x p q n (k + 1)
  end.

(** Steps 6 to 12 of Number::toString: positional notation for
    [-5 <= n <= 21], exponential notation otherwise. *)
Definition format (s n : Z) : string :=
  let ds := decimal s in
  let k := Z.of_nat (String.length ds) in
  if (-5 <=? n) && (n <=? 21) then
    if k <=? n then (ds ++ zeros (n - k))%string
    else if 0 <? n then
      (substring 0 (Z.to_nat n) ds ++ "." ++ substring (Z.to_nat n) (Z.to_nat (k - n)) ds)%string
    else ("0." ++ zeros (- n) ++ ds)%string
  else
    let e := n - 1 in
    let sign : string := if e <? 0 then "-"%string else "+"%string in
    let es := (sign ++ decimal (Z.abs e))%string in
    if k =? 1 then (ds ++ "e" ++ es)%string
    else (substring 0 1 ds ++ "." ++ substring 1 (Z.to_nat (k - 1)) ds ++ "e" ++ es)%string.

Definition toString (x : number) : string :=
  match x with
  | S754_nan => "NaN"
  | S754_zero _ => "0"
  | S754_infinity s => if s then "-Infinity" else "Infinity"
  | S754_finite s m e =>
      let '(p, q) := ratio m e in
      let '(d, n) := shortest 17 (S754_finite false m e) p q (magnitude10 p q) 1 in
      let sign : string := if s then "-"%string else ""%string in
      (sign ++ format d n)%string
  end.

End Number.

Abbreviation number := Number.number.

(* ===================================================================== *)
(** * Strings: scanning numeric text ([parseInt], StringToNumber)         *)
(* ===================================================================== *)

Module Text.

Definition code (c : ascii) : Z := Z.of_N (N_of_ascii c).

Definition in_range (lo hi : Z) (c : ascii) : bool := (lo <=? code c) && (code c <=? hi).
Definition is_byte (n : Z) (c : ascii) : bool := code c =? n.

(** The bytes of a code unit: one byte below 0x80, or a lead byte C2..DF
    and one continuation byte 80..BF, or a lead byte E0..EF and two
    continuation bytes.  A lead byte F0..F4 and three continuation bytes
    spell a character outside the Basic Multilingual Plane, that is, two
    code units. *)
Definition is_single (a : ascii) : bool := code a <? 0x80.
Definition is_lead2 (a : ascii) : bool := in_range 0xC2 0xDF a.
Definition is_lead3 (a : ascii) : bool := in_range 0xE0 0xEF a.
Definition is_lead4 (a : ascii) : bool := in_range 0xF0 0xF4 a.
Definition is_continuation (a : ascii) : bool := in_range 0x80 0xBF a.

Definition byte (n : Z) : ascii := ascii_of_N (Z.to_N n).

(** The two surrogates of the character that four bytes spell. *)
Definition surrogates (a b c d : ascii) : list string :=
  let point :=
    (code a mod 8) * 262144 + (code b mod 64) * 4096 + (code c mod 64) * 64 + code d mod 64 in
  let offset := point - 0x10000 in
  let unit (u : Z) : string :=
    String (byte 0xED)
      (String (byte (0x80 + (u / 64) mod 64)) (String (byte (0x80 + u mod 64)) EmptyString)) in
  [unit (0xD800 + offset / 1024); unit (0xDC00 + offset mod 1024)].

(** The code units of a String, each as a String of its own. *)
Fixpoint units (l : list ascii) : list string :=
  match l with
  | [] => []
  | a :: l1 =>
      if is_lead2 a then
        match l1 with
        | b :: l2 => String a (String b EmptyString) :: units l2
        | [] => [String a EmptyString]
        end
      else if is_lead3 a then
        match l1 with
        | b :: c :: l3 => String a (String b (String c EmptyString)) :: units l3
        | _ => [string_of_list_ascii l]
        end
      else if is_lead4 a then
        match l1 with
        | b :: c :: d :: l4 => surrogates a b c d ++ units l4
        | _ => [string_of_list_ascii l]
        end
      else String a EmptyString :: units l1
  end.

(** WhiteSpace and LineTerminator code units, by the bytes that spell
    them: TAB, LF, VT, FF, CR and SP; U+00A0; then U+1680, U+2000 to
    U+200A, U+2028, U+2029, U+202F, U+205F, U+3000 and U+FEFF. *)
Definition white_space_1 (a : ascii) : bool := in_range 9 13 a || is_byte 32 a.

Definition white_space_2 (a b : ascii) : bool := is_byte 0xC2 a && is_byte 0xA0 b.

Definition white_space_3 (a b c : ascii) : bool :=
  (is_byte 0xE1 a && is_byte 0x9A b && is_byte 0x80 c) ||
  (is_byte 0xE2 a && is_byte 0x80 b &&
     (in_range 0x80 0x8A c || is_byte 0xA8 c || is_byte 0xA9 c || is_byte 0xAF c)) ||
  (is_byte 0xE2 a && is_byte 0x81 b && is_byte 0x9F c) ||
  (is_byte 0xE3 a && is_byte 0x80 b && is_byte 0x80 c) ||
  (is_byte 0xEF a && is_byte 0xBB b && is_byte 0xBF c).

(** Drops the white space a text starts with. *)
Fixpoint trim_start (l : list ascii) : list ascii :=
  match l with
  | [] => []
  | a :: l1 =>
      if white_space_1 a then trim_start l1
      else
        match l1 with
        | [] => l
        | b :: l2 =>
            if white_space_2 a b then trim_start l2
            else
              match l2 with
              | [] => l
              | c :: l3 => if white_space_3 a b c then trim_start l3 else l
              end
        end
  end.

(** The same from the end, on the reversed text: the bytes of a code unit
    come last byte first. *)
Fixpoint trim_start_reversed (l : list ascii) : list ascii :=
  match l with
  | [] => []
  | c :: l1 =>
      if white_space_1 c then trim_start_reversed l1
      else
        match l1 with
        | [] => l
        | b :: l2 =>
            if white_space_2 b c then trim_start_reversed l2
            else
              match l2 with
              | [] => l
              | a :: l3 => if white_space_3 a b c then trim_start_reversed l3 else l
              end
        end
  end.

Definition trim (l : list ascii) : list ascii :=
  rev (trim_start_reversed (rev (trim_start l))).

(** The value of a digit in a radix up to 36: [0-9], then [a-z] or [A-Z]
    for ten to thirty-five. *)
Definition digit_value (c : ascii) : option Z :=
  let n := code c in
  if (48 <=? n) && (n <=? 57) then Some (n - 48)
  else if (97 <=? n) && (n <=? 122) then Some (n - 87)
  else if (65 <=? n) && (n <=? 90) then Some (n - 55)
  else None.

Definition radix_digit (R : Z) (c : ascii) : option Z :=
  match digit_value c with
  | Some d => if d <? R then Some d else None
  | None => None
  end.

(** Reads the longest prefix of radix-[R] digits: its value on top of
    [acc], how many digits were read, and the unread rest. *)
Fixpoint scan_digits (R : Z) (l : list ascii) (acc : Z) (count : nat)
  : Z * nat * list ascii :=
  match l with
  | c :: l' =>
      match radix_digit R c with
      | Some d => scan_digits R l' (acc * R + d) (S count)
      | None => (acc, count, l)
      end
  | [] => (acc, count, [])
  end.

Definition ascii_eqb_list (a b : list ascii) : bool :=
  String.eqb (string_of_list_ascii a) (string_of_list_ascii b).

(** NonDecimalIntegerLiteral, after its [0x], [0o] or [0b]. *)
Definition integer_literal (R : Z) (l : list ascii) : number :=
  match scan_digits R l 0 0 with
  | (v, S _, []) => Number.of_Z v
  | _ => Number.NaN
  end.

(** StrUnsignedDecimalLiteral. *)
Definition decimal_literal (l : list ascii) : number :=
  if ascii_eqb_list l (list_ascii_of_string "Infinity") then Number.Infinity
  else
    let '(a, ca, r1) := scan_digits 10 l 0 0 in
    let '(m, cb, r2) :=
      match r1 with
      | "."%char :: r => scan_digits 10 r a 0
      | _ => (a, O, r1)
      end in
    match (ca + cb)%nat with
    | O => Number.NaN
    | S _ =>
        match r2 with
        | [] => Number.of_decimal m (- Z.of_nat cb)
        | c :: r3 =>
            if Ascii.eqb c "e" || Ascii.eqb c "E" then
              let '(neg, r4) :=
                match r3 with
                | "+"%char :: r => (false, r)
                | "-"%char :: r => (true, r)
                | _ => (false, r3)
                end in
              match scan_digits 10 r4 0 0 with
              | (ev, S _, []) =>
                  Number.of_decimal m ((if neg then - ev else ev) - Z.of_nat cb)
              | _ => Number.NaN
              end
            else Number.NaN
        end
    end.

(** StringToNumber: the Number a String converts to; [NaN] when the text
    is not a StringNumericLiteral. *)
Definition StringToNumber (str : string) : number :=
  match trim (list_ascii_of_string str) with
  | [] => Number.zero
  | "+"%char :: r => decimal_literal r
  | "-"%char :: r => Number.negate true (decimal_literal r)
  | "0"%char :: c :: r =>
      if Ascii.eqb c "x" || Ascii.eqb c "X" then integer_literal 16 r
      else if Ascii.eqb c "o" || Ascii.eqb c "O" then integer_literal 8 r
      else if Ascii.eqb c "b" || Ascii.eqb c "B" then integer_literal 2 r
      else decimal_literal ("0"%char :: c :: r)
  | l => decimal_literal l
  end.

(** [parseInt(string, radix)] on a String argument and an integer radix
    (steps 2 to 16 of the algorithm).  An input without a leading digit
    yields [NaN]; nothing here throws. *)
Definition parseInt (inputString : string) (radix : Z) : number :=
  let S0 := trim_start (list_ascii_of_string inputString) in
  let sign := match S0 with c :: _ => Ascii.eqb c "-" | [] => false end in
  let S1 :=
    match S0 with
    | c :: r => if Ascii.eqb c "+" || Ascii.eqb c "-" then r else S0
    | [] => S0
    end in
  if negb (radix =? 0) && ((radix <? 2) || (36 <? radix)) then Number.NaN
  else
    let R := if radix =? 0 then 10 else radix in
    let stripPrefix := (radix =? 0) || (radix =? 16) in
    let '(R, S2) :=
      match S1 with
      | c0 :: c1 :: r =>
          if stripPrefix && Ascii.eqb c0 "0" && (Ascii.eqb c1 "x" || Ascii.eqb c1 "X")
          then (16, r)
          else (R, S1)
      | _ => (R, S1)
      end in
    match scan_digits R S2 0 0 with
    | (_, O, _) => Number.NaN
    | (mathInt, S _, _) =>
        if mathInt =? 0 then Number.negate sign Number.zero
        else Number.negate sign (Number.of_Z mathInt)
    end.

(** Strings of hexadecimal digits and the integer they denote, read by
    the standard library's [HexString]. *)
Definition is_hex_digit (c : ascii) : bool :=
  match HexString.ascii_to_digit c with
  | Some _ => true
  | None => false
  end.

Definition hex_digits (s : string) : bool :=
  negb (String.eqb s "") && forallb is_hex_digit (list_ascii_of_string s).

Definition hex_value (s : string) : Z := Z.of_N (HexString.Raw.to_N s 0).

(** [text] is [digits], bare or behind a [0x] or [0X] prefix. *)
Definition hex_bound (text digits : string) : Prop :=
  text = digits \/ text = String "0" (String "x" digits) \/
  text = String "0" (String "X" digits).

End Text.

(* ===================================================================== *)
(** * Values, coercions and operators                                     *)
(* ===================================================================== *)

Module Js.

(** A value of type [any]. *)
Inductive JsValue : Type :=
| JUndefined
| JNull
| JBool (b : bool)
| JNum (x : number)
| JBigInt (z : Z)
| JStr (s : string)
| JArr (elements : list JsValue)
| JObj (properties : gmap string JsValue).

(** Abrupt completions: the only error the operations used here raise is
    a TypeError. *)
Inductive JsError : Type := TypeError.

Inductive completion (A : Type) : Type :=
| Normal (a : A)
| Throw (e : JsError).
Arguments Normal {A} a.
Arguments Throw {A} e.

Definition bind {A B : Type} (c : completion A) (k : A -> completion B) : completion B :=
  match c with
  | Normal a => k a
  | Throw e => Throw e
  end.

(** [try { body } catch (e) { handler }] where both produce a value. *)
Definition try_catch {A : Type} (body : completion A) (handler : JsError -> A) : A :=
  match body with
  | Normal a => a
  | Throw e => handler e
  end.

(** ToBoolean. *)
Definition ToBoolean (v : JsValue) : bool :=
  match v with
  | JUndefined | JNull => false
  | JBool b => b
  | JNum x => Number.truthy x
  | JBigInt z => negb (z =? 0)
  | JStr s => negb (String.eqb s "")
  | JArr _ | JObj _ => true
  end.

(** [typeof v === 'string'] *)
Definition is_string (v : JsValue) : bool :=
  match v with
  | JStr _ => true
  | _ => false
  end.

(** [v === s] for a string literal [s] (strict equality: no coercion). *)
Definition strict_eq_string (v : JsValue) (s : string) : bool :=
  match v with
  | JStr s' => String.eqb s' s
  | _ => false
  end.

(** [v === true] *)
Definition strict_eq_true (v : JsValue) : bool :=
  match v with
  | JBool true => true
  | _ => false
  end.

(** [a || b] on values. *)
Definition or_else (a b : JsValue) : JsValue := if ToBoolean a then a else b.

(** [params[i]]: an index past the end reads [undefined]. *)
Definition index (params : list JsValue) (i : nat) : JsValue :=
  default JUndefined (params !! i).

(** [v.key] for a truthy [v] and a key that no built-in prototype
    defines (the validators read [fromBlock], [toBlock], [address] and
    [topics]): the own property of an object, [undefined] on an array or a
    primitive. *)
Definition get (v : JsValue) (key : string) : JsValue :=
  match v with
  | JObj properties => default JUndefined (properties !! key)
  | _ => JUndefined
  end.

(** An object literal [{ k1: v1, ..., kn: vn }]: a later entry for the
    same key replaces an earlier one. *)
Definition object (entries : list (string * JsValue)) : JsValue :=
  JObj (foldl (fun properties kv => <[kv.1 := kv.2]> properties) ∅ entries).

Definition BigInt_toString (z : Z) : string :=
  let sign : string := if z <? 0 then "-"%string else ""%string in
  (sign ++ Number.decimal (Z.abs z))%string.

(** Does the object have an own property [key]? *)
Definition has_own (properties : gmap string JsValue) (key : string) : bool :=
  bool_decide (is_Some (properties !! key)).

(** ToString.  An object or an array goes through ToPrimitive, which
    looks up [toString] and [valueOf] and calls the ones that are
    functions.  A plain object inherits both from [Object.prototype]:
    [valueOf] returns the object itself, which is no primitive, and
    [toString] returns "[object Object]".  An own [toString] property hides
    the inherited one and, being data, cannot be called: no primitive is
    obtained and the conversion throws a TypeError (an own [valueOf] changes
    nothing: it is skipped, and the inherited one gave no primitive either).
    An array inherits [Array.prototype.toString], which joins the elements
    with commas, [undefined] and [null] giving the empty string and every
    other element being converted in turn. *)
Fixpoint ToString (v : JsValue) : completion string :=
  match v with
  | JUndefined => Normal "undefined"%string
  | JNull => Normal "null"%string
  | JBool b => Normal (if b then "true" else "false")%string
  | JNum x => Normal (Number.toString x)
  | JBigInt z => Normal (BigInt_toString z)
  | JStr s => Normal s
  | JArr elements =>
      bind
        ((fix join (l : list JsValue) : completion (list string) :=
            match l with
            | [] => Normal []
            | e :: rest =>
                bind (match e with
                      | JUndefined | JNull => Normal ""%string
                      | _ => ToString e
                      end) (fun next =>
                bind (join rest) (fun parts => Normal (next :: parts)))
            end) elements)
        (fun parts => Normal (String.concat "," parts))
  | JObj properties =>
      if has_own properties "toString" then Throw TypeError
      else Normal "[object Object]"%string
  end.

(** The values whose conversion to a primitive throws: an object with an
    own [toString], and an array that holds one, directly or inside an
    array it holds. *)
Fixpoint unconvertible (v : JsValue) : bool :=
  match v with
  | JObj properties => has_own properties "toString"
  | JArr elements => existsb unconvertible elements
  | _ => false
  end.

(** Numeric values: the results of ToNumeric. *)
Inductive numeric : Type :=
| Num (x : number)
| Big (z : Z).

(** ToNumeric: ToPrimitive with hint number, which for an array or a
    plain object comes to its ToString, then ToNumber unless a BigInt. *)
Definition ToNumeric (v : JsValue) : completion numeric :=
  match v with
  | JUndefined => Normal (Num Number.NaN)
  | JNull => Normal (Num Number.zero)
  | JBool b => Normal (Num (Number.of_Z (if b then 1 else 0)))
  | JNum x => Normal (Num x)
  | JBigInt z => Normal (Big z)
  | JStr s => Normal (Num (Text.StringToNumber s))
  | JArr _ | JObj _ => bind (ToString v) (fun s => Normal (Num (Text.StringToNumber s)))
  end.

(** The binary [-] operator: both operands are converted, the left one
    first; mixing BigInt and Number is a TypeError. *)
Definition subtract (a b : JsValue) : completion numeric :=
  bind (ToNumeric a) (fun x =>
  bind (ToNumeric b) (fun y =>
  match x, y with
  | Num x, Num y => Normal (Num (Number.subtract x y))
  | Big x, Big y => Normal (Big (x - y))
  | _, _ => Throw TypeError
  end)).

(** [a > limit] for a numeric [a] and a Number [limit]. *)
Definition greaterThan (a : numeric) (limit : number) : bool :=
  match a with
  | Num x => Number.lessThan limit x
  | Big z => Number.lessThan_integer limit z
  end.

(** A numeric value inside a template literal. *)
Definition numeric_toString (a : numeric) : string :=
  match a with
  | Num x => Number.toString x
  | Big z => BigInt_toString z
  end.

(** [parseInt(v, radix)]: the argument is first converted to a String. *)
Definition parseInt (v : JsValue) (radix : Z) : completion number :=
  bind (ToString v) (fun inputString => Normal (Text.parseInt inputString radix)).

(** Does [JSON.stringify(v, null, 2)] throw?  It does, with a TypeError,
    when it comes upon a BigInt, at any depth (a [toJSON] property that is
    data is not called). *)
Fixpoint holds_bigint (v : JsValue) : bool :=
  match v with
  | JBigInt _ => true
  | JArr elements => existsb holds_bigint elements
  | JObj properties => map_fold (fun _ value found => holds_bigint value || found) false properties
  | _ => false
  end.

End Js.

(* ===================================================================== *)
(** * Regular expressions: the patterns of the intent validator           *)
(* ===================================================================== *)

Module RegExp.

(** [.] matches one code unit that is not a line terminator (LF, CR,
    U+2028, U+2029).  A code unit is read byte by byte; what has been read
    of it so far is one of these.  The four-byte form of a character, its
    two surrogates, is read in one go: under a [*], as every [.] of the
    source's patterns is, that matches the same texts. *)
Inductive progress : Type :=
| Start                (* nothing yet *)
| Three_left           (* a lead byte F0..F4 *)
| Two_left             (* a lead byte E0..EF other than E2, or one byte more *)
| After_E2             (* the lead byte E2 *)
| After_E2_80          (* E2 80, where U+2028 and U+2029 are *)
| One_left             (* all but the last continuation byte *)
| Complete.

(** The line terminators of one byte, LF and CR; U+2028 and U+2029 are
    E2 80 A8 and E2 80 A9, told apart in [step]. *)
Definition is_newline (a : ascii) : bool :=
  Text.is_byte 10 a || Text.is_byte 13 a.

Definition step (p : progress) (a : ascii) : option progress :=
  match p with
  | Start =>
      if Text.is_single a then (if is_newline a then None else Some Complete)
      else if Text.is_lead2 a then Some One_left
      else if Text.is_byte 0xE2 a then Some After_E2
      else if Text.is_lead3 a then Some Two_left
      else if Text.is_lead4 a then Some Three_left
      else None
  | Three_left => if Text.is_continuation a then Some Two_left else None
  | Two_left => if Text.is_continuation a then Some One_left else None
  | After_E2 =>
      if Text.is_byte 0x80 a then Some After_E2_80
      else if Text.is_continuation a then Some One_left
      else None
  | After_E2_80 =>
      if Text.is_continuation a && negb (Text.is_byte 0xA8 a || Text.is_byte 0xA9 a)
      then Some Complete else None
  | One_left => if Text.is_continuation a then Some Complete else None
  | Complete => None
  end.

(** [w] is what remains to be read of a code unit that [.] matches. *)
Fixpoint completes (p : progress) (w : list ascii) : bool :=
  match w with
  | [] => match p with Complete => true | _ => false end
  | a :: w' =>
      match step p a with
      | Some p' => completes p' w'
      | None => false
      end
  end.

(** The words of [.], all at once: the bytes of one code unit, or of one
    character in its four-byte form, that is not a line terminator
    ([completes Start] reads exactly these, see [completes_dot_word]). *)
Definition dot_word (w : list ascii) : bool :=
  match w with
  | [a] => Text.is_single a && negb (is_newline a)
  | [a; b] => Text.is_lead2 a && Text.is_continuation b
  | [a; b; c] =>
      Text.is_lead3 a && Text.is_continuation b && Text.is_continuation c &&
      negb (Text.is_byte 0xE2 a && Text.is_byte 0x80 b &&
            (Text.is_byte 0xA8 c || Text.is_byte 0xA9 c))
  | [a; b; c; d] =>
      Text.is_lead4 a && Text.is_continuation b && Text.is_continuation c &&
      Text.is_continuation d
  | _ => false
  end.

(** The line terminators, as Strings: line feed, carriage return, line
    separator (U+2028) and paragraph separator (U+2029). *)
Definition LF : string := String (ascii_of_N 10) EmptyString.
Definition CR : string := String (ascii_of_N 13) EmptyString.
Definition LS : string :=
  String (ascii_of_N 0xE2) (String (ascii_of_N 0x80) (String (ascii_of_N 0xA8) EmptyString)).
Definition PS : string :=
  String (ascii_of_N 0xE2) (String (ascii_of_N 0x80) (String (ascii_of_N 0xA9) EmptyString)).

Definition LineTerminator : list string := [LF; CR; LS; PS].

(** Patterns; [Unit p] is a [.] of which [p] has been read. *)
Inductive regex : Type :=
| Void
| Eps
| Chr (c : ascii)
| Unit (p : progress)
| Alt (r1 r2 : regex)
| Cat (r1 r2 : regex)
| Star (r : regex).

Definition Dot : regex := Unit Start.

(** A RegExp object: its pattern and its [i] flag. *)
Record t : Type := { source : regex; ignoreCase : bool }.

(** The pattern syntax the validator's literals use: ASCII characters
    that stand for themselves, [.] and a postfix [*]. *)
Definition atom (c : ascii) : regex := if Ascii.eqb c "." then Dot else Chr c.

Fixpoint parse (pattern : list ascii) : regex :=
  match pattern with
  | [] => Eps
  | c :: "*"%char :: rest => Cat (Star (atom c)) (parse rest)
  | c :: rest => Cat (atom c) (parse rest)
  end.

(** [/pattern/flags] *)
Definition literal (pattern flags : string) : t :=
  {| source := parse (list_ascii_of_string pattern);
     ignoreCase := existsb (Ascii.eqb "i") (list_ascii_of_string flags) |}.

(** Canonicalize under the [i] flag, for the bytes of a pattern of ASCII
    characters and of the text it is tried on: [a-z] go to upper case; no
    code unit from U+0080 on is canonicalized to an ASCII one, and each of
    its bytes is kept. *)
Definition canonicalize (ignoreCase : bool) (c : ascii) : ascii :=
  let n := Text.code c in
  if ignoreCase && (97 <=? n) && (n <=? 122)
  then ascii_of_N (Z.to_N (n - 32))
  else c.

Definition char_matches (ignoreCase : bool) (c a : ascii) : bool :=
  Ascii.eqb (canonicalize ignoreCase c) (canonicalize ignoreCase a).

(** The words of a pattern. *)
Inductive matches (i : bool) : regex -> list ascii -> Prop :=
| m_eps : matches i Eps []
| m_chr c a : char_matches i c a = true -> matches i (Chr c) [a]
| m_unit p w : completes p w = true -> matches i (Unit p) w
| m_alt_l r1 r2 w : matches i r1 w -> matches i (Alt r1 r2) w
| m_alt_r r1 r2 w : matches i r2 w -> matches i (Alt r1 r2) w
| m_cat r1 r2 w1 w2 : matches i r1 w1 -> matches i r2 w2 -> matches i (Cat r1 r2) (w1 ++ w2)
| m_star_nil r : matches i (Star r) []
| m_star_app r w1 w2 : matches i r w1 -> matches i (Star r) w2 -> matches i (Star r) (w1 ++ w2).

(** Matching by derivatives. *)
Fixpoint nullable (r : regex) : bool :=
  match r with
  | Void | Chr _ => false
  | Unit p => completes p []
  | Eps | Star _ => true
  | Alt r1 r2 => nullable r1 || nullable r2
  | Cat r1 r2 => nullable r1 && nullable r2
  end.

Definition alt (r1 r2 : regex) : regex :=
  match r1, r2 with
  | Void, _ => r2
  | _, Void => r1
  | _, _ => Alt r1 r2
  end.

Definition cat (r1 r2 : regex) : regex :=
  match r1, r2 with
  | Void, _ => Void
  | _, Void => Void
  | Eps, _ => r2
  | _, _ => Cat r1 r2
  end.

Fixpoint deriv (i : bool) (a : ascii) (r : regex) : regex :=
  match r with
  | Void | Eps => Void
  | Chr c => if char_matches i c a then Eps else Void
  | Unit p => match step p a with Some p' => Unit p' | None => Void end
  | Alt r1 r2 => alt (deriv i a r1) (deriv i a r2)
  | Cat r1 r2 =>
      if nullable r1 then alt (cat (deriv i a r1) r2) (deriv i a r2)
      else cat (deriv i a r1) r2
  | Star r1 => cat (deriv i a r1) (Star r1)
  end.

(** Does a prefix of [s] match? *)
Fixpoint match_prefix (i : bool) (r : regex) (s : list ascii) : bool :=
  nullable r ||
  match s with
  | [] => false
  | a :: s' => match_prefix i (deriv i a r) s'
  end.

(** Does a match start at some position of [s]? *)
Fixpoint search (i : bool) (r : regex) (s : list ascii) : bool :=
  match_prefix i r s ||
  match s with
  | [] => false
  | _ :: s' => search i r s'
  end.

(** [regexp.test(str)] for a RegExp without the [g] and [y] flags. *)
Definition test (regexp : t) (str : string) : bool :=
  search (ignoreCase regexp) (source regexp) (list_ascii_of_string str).

(** A match somewhere in [str]. *)
Definition found_in (regexp : t) (str : string) : Prop :=
  exists before w after,
    list_ascii_of_string str = before ++ w ++ after /\
    matches (ignoreCase regexp) (source regexp) w.

End RegExp.

(* ===================================================================== *)
(** * The safety checks                                                   *)
(* ===================================================================== *)

Module Safety.

Import Js.

Record SafetyCheckResult : Type := {
  safe : bool;
  reason : option string;
  suggestion : option string
}.

Record SafetyConfig : Type := {
  maxTransactionsPerBlock : number;
  maxBlockRange : number;
  maxResponseSizeEstimate : number;
  allowBlocksWithTransactions : bool
}.

Definition DEFAULT_SAFETY_CONFIG : SafetyConfig := {|
  maxTransactionsPerBlock := Number.of_Z 10;
  maxBlockRange := Number.of_Z 10;
  maxResponseSizeEstimate := Number.of_Z 500;
  allowBlocksWithTransactions := false
|}.

(** A parameter [config: SafetyConfig = DEFAULT_SAFETY_CONFIG]: [None] is
    an omitted (or [undefined]) argument. *)
Definition or_default (config : option SafetyConfig) : SafetyConfig :=
  default DEFAULT_SAFETY_CONFIG config.

(** The two shapes of result object: [{ safe: true }] and
    [{ safe: false, reason, suggestion }]. *)
Definition safe_result : SafetyCheckResult :=
  {| safe := true; reason := None; suggestion := None |}.

Definition unsafe_result (why how : string) : SafetyCheckResult :=
  {| safe := false; reason := Some why; suggestion := Some how |}.

Definition DANGEROUS_METHODS : gset string :=
  list_to_set [
    "eth_getBlockByNumber";
    "eth_getBlockByHash";
    "eth_getLogs";
    "eth_getTransactionReceipt";
    "debug_traceTransaction";
    "trace_block";
    "trace_transaction"
  ]%string.

Definition TRANSACTION_HISTORY_PATTERNS : list RegExp.t := [
  RegExp.literal "get.*transaction.*for.*address" "i";
  RegExp.literal "transaction.*history" "i";
  RegExp.literal "recent.*transactions" "i";
  RegExp.literal "last.*transaction" "i";
  RegExp.literal "latest.*transaction.*on.*address" "i";
  RegExp.literal "address.*transactions" "i"
].

Definition isTransactionHistoryQuery (query : string) : bool :=
  existsb (fun pattern => RegExp.test pattern query) TRANSACTION_HISTORY_PATTERNS.

Definition isDangerousMethod (method : string) : bool :=
  bool_decide (method ∈ DANGEROUS_METHODS).

Definition checkBlockQuery (method : string) (params : list JsValue)
    (config : option SafetyConfig) : SafetyCheckResult :=
  let config := or_default config in
  if String.eqb method "eth_getBlockByNumber" || String.eqb method "eth_getBlockByHash" then
    let includeTransactions := strict_eq_true (index params 1) in
    if includeTransactions && negb (allowBlocksWithTransactions config) then
      unsafe_result
        "Requesting blocks with full transactions is disabled to prevent context overflow"
        "Use eth_getBlockByNumber with false parameter to get block without transactions, or query specific transactions by hash"
    else if includeTransactions then
      unsafe_result
        "Blocks can contain 100+ transactions, causing session crashes"
        "Query specific transactions by hash instead, or use a block explorer API"
    else safe_result
  else safe_result.

(** The block of [checkLogQuery] under "Check block range" (the [if] with
    its [try]/[catch]): [Some r] when it returns [r], [None] when control
    falls through to the statements after it. *)
Definition checkBlockRange (fromBlock toBlock : JsValue) (config : SafetyConfig)
  : option SafetyCheckResult :=
  if ToBoolean fromBlock && ToBoolean toBlock && negb (strict_eq_string toBlock "latest") then
    try_catch
      (bind (if is_string fromBlock
             then bind (parseInt fromBlock 16) (fun n => Normal (JNum n))
             else Normal fromBlock) (fun from =>
       bind (if is_string toBlock
             then bind (parseInt toBlock 16) (fun n => Normal (JNum n))
             else Normal toBlock) (fun to =>
       bind (subtract to from) (fun range =>
       if greaterThan range (maxBlockRange config) then
         Normal (Some (unsafe_result
           ("Block range " ++ numeric_toString range ++ " exceeds maximum "
              ++ Number.toString (maxBlockRange config))
           "Reduce the block range or use pagination"))
       else Normal None))))
      (fun e =>
         Some (unsafe_result
           "Unable to validate block range safety"
           "Specify explicit numeric block ranges"))
  else None.

Definition checkLogQuery (params : list JsValue) (config : option SafetyConfig)
  : SafetyCheckResult :=
  let config := or_default config in
  if negb (ToBoolean (index params 0)) then safe_result
  else
    let filter := index params 0 in
    let fromBlock := get filter "fromBlock" in
    let toBlock := or_else (get filter "toBlock") (JStr "latest") in
    match checkBlockRange fromBlock toBlock config with
    | Some result => result
    | None =>
        if negb (ToBoolean (get filter "address")) && negb (ToBoolean (get filter "topics")) then
          unsafe_result
            "Unrestricted log queries can return massive amounts of data"
            "Add address or topic filters to limit results"
        else safe_result
    end.

Definition validateRPCCall (blockchain method : string) (params : list JsValue)
    (config : option SafetyConfig) : SafetyCheckResult :=
  let config := or_default config in
  if isDangerousMethod method then
    if String.prefix "eth_getBlock" method then checkBlockQuery method params (Some config)
    else if String.eqb method "eth_getLogs" then checkLogQuery params (Some config)
    else
      unsafe_result
        ("Method " ++ method ++ " can return extremely large responses")
        "Use safer alternatives or fetch data from a block explorer API"
  else safe_result.

Definition newline : string := String (ascii_of_N 10) EmptyString.

Definition dangerousPatterns : list RegExp.t := [
  RegExp.literal "get all transactions" "i";
  RegExp.literal "list all" "i";
  RegExp.literal "fetch all" "i";
  RegExp.literal "every transaction" "i";
  RegExp.literal "all.*logs" "i"
].

(** [for (const pattern of patterns) if (pattern.test(query)) return r]:
    [Some r] at the first pattern that matches, [None] when the loop runs
    out. *)
Fixpoint return_on_first_match (patterns : list RegExp.t) (query : string)
    (r : SafetyCheckResult) : option SafetyCheckResult :=
  match patterns with
  | [] => None
  | pattern :: rest =>
      if RegExp.test pattern query then Some r
      else return_on_first_match rest query r
  end.

Definition validateNaturalLanguageQuery (query : string) (config : option SafetyConfig)
  : SafetyCheckResult :=
  if isTransactionHistoryQuery query then
    unsafe_result
      "Transaction history queries require fetching multiple blocks with full transaction data, which causes context overflow"
      ("Instead:" ++ newline ++
       "  • Query a specific transaction by hash if you know it" ++ newline ++
       "  • Use a block explorer API (Etherscan, etc.) for transaction history" ++ newline ++
       "  • Ask for current balance or state instead of history")
  else
    match
      return_on_first_match dangerousPatterns query
        (unsafe_result
           "Query requests potentially unbounded data"
           "Add specific limits, filters, or time ranges to your query")
    with
    | Some result => result
    | None => safe_result
    end.

(** [/pattern/i] matches somewhere in the query. *)
Definition found (pattern query : string) : Prop :=
  RegExp.found_in (RegExp.literal pattern "i") query.

(** The result [checkLogQuery] gives a filter without address and
    topics. *)
Definition unrestricted_result : SafetyCheckResult :=
  unsafe_result
    "Unrestricted log queries can return massive amounts of data"
    "Add address or topic filters to limit results".

(** The invariant of a result: reason and suggestion are both present
    and non-empty when [safe] is [false], both absent when it is [true]. *)
Definition present_nonempty (field : option string) : bool :=
  match field with
  | Some text => negb (String.eqb text "")
  | None => false
  end.

Definition absent (field : option string) : bool :=
  match field with
  | Some _ => false
  | None => true
  end.

Definition result_invariant (r : SafetyCheckResult) : bool :=
  if safe r then absent (reason r) && absent (suggestion r)
  else present_nonempty (reason r) && present_nonempty (suggestion r).

End Safety.

(* ===================================================================== *)
(** * The response-size estimator                                         *)
(* ===================================================================== *)

Module Estimator.

Import Js Safety.

(** The property names every plain object inherits from
    [Object.prototype]; each names a built-in function, or for [__proto__]
    the prototype object itself. *)
Definition Object_prototype_keys : list string := [
  "constructor"; "__defineGetter__"; "__defineSetter__"; "hasOwnProperty";
  "__lookupGetter__"; "__lookupSetter__"; "isPrototypeOf";
  "propertyIsEnumerable"; "toString"; "valueOf"; "__proto__"; "toLocaleString"
]%string.

(** What reading a property of a plain object yields: a value, or one of
    the members of [Object.prototype] (all of them truthy). *)
Inductive Member : Type :=
| Value (v : JsValue)
| Builtin (key : string).

(** [o[key]] for an object literal [o]: the own property, else the
    inherited one, else [undefined]. *)
Definition inherited (key : string) : bool :=
  bool_decide (key ∈ Object_prototype_keys).

Definition member (o : JsValue) (key : string) : Member :=
  match o with
  | JObj properties =>
      match properties !! key with
      | Some v => Value v
      | None => if inherited key then Builtin key else Value JUndefined
      end
  | _ => Value JUndefined
  end.

(** The table [estimates] of [estimateResponseSize], sizes in KB. *)
Definition estimates (params : list JsValue) : JsValue :=
  object [
    ("eth_getBlockByNumber",
      JNum (if strict_eq_true (index params 1) then Number.of_Z 500 else Number.of_Z 5));
    ("eth_getBlockByHash",
      JNum (if strict_eq_true (index params 1) then Number.of_Z 500 else Number.of_Z 5));
    ("eth_getLogs", JNum (Number.of_Z 200));
    ("eth_getTransactionReceipt", JNum (Number.of_Z 10));
    ("debug_traceTransaction", JNum (Number.of_Z 1000));
    ("trace_block", JNum (Number.of_Z 2000))
  ]%string.

(** [estimates[method] || 5] *)
Definition estimateResponseSize (method : string) (params : list JsValue) : Member :=
  match member (estimates params) method with
  | Value v => Value (or_else v (JNum (Number.of_Z 5)))
  | Builtin key => Builtin key
  end.

(** The sizes the table and the default can give. *)
Definition estimate_sizes : list Z := [5; 10; 200; 500; 1000; 2000].

End Estimator.

(* ===================================================================== *)
(** * Query texts: letter case, lines, and the shape of the patterns      *)
(* ===================================================================== *)

Module Query.

Import RegExp.

(** The upper-case form of an ASCII letter; every other byte is left
    alone. *)
Definition ascii_upper (c : ascii) : ascii :=
  let n := Text.code c in
  if (97 <=? n) && (n <=? 122) then ascii_of_N (Z.to_N (n - 32)) else c.

(** Two texts that differ at most in the case of their ASCII letters. *)
Definition same_letters (q q' : string) : Prop :=
  List.map ascii_upper (list_ascii_of_string q) =
  List.map ascii_upper (list_ascii_of_string q').

(** Concatenation of patterns written as a chain [x1 (x2 (... Eps))], the
    shape [parse] produces. *)
Fixpoint seq (r1 r2 : regex) : regex :=
  match r1 with
  | Eps => r2
  | Cat x r1' => Cat x (seq r1' r2)
  | _ => Cat r1 r2
  end.

(** Every literal of the pattern is an ASCII character other than a line
    terminator, and every [.] is a whole one. *)
Fixpoint line_free (r : regex) : bool :=
  match r with
  | Void | Eps | Unit Start => true
  | Unit _ => false
  | Chr c => Text.is_single c && negb (is_newline c)
  | Alt r1 r2 | Cat r1 r2 => line_free r1 && line_free r2
  | Star r1 => line_free r1
  end.

(** A word none of whose bytes can be taken for part of a line
    terminator: it has no LF and no CR, and each E2 in it is followed, in
    it, by two bytes other than 80 A8 and 80 A9. *)
Fixpoint unbroken (w : list ascii) : bool :=
  match w with
  | [] => true
  | a :: w' =>
      negb (is_newline a) &&
      (if Text.is_byte 0xE2 a then
         match w' with
         | b :: c :: _ =>
             negb (Text.is_byte 0x80 b && (Text.is_byte 0xA8 c || Text.is_byte 0xA9 c))
         | _ => false
         end
       else true) &&
      unbroken w'
  end.

(** A word that does not start in the middle of a code unit. *)
Definition starts_whole (w : list ascii) : bool :=
  match w with
  | [] => true
  | a :: _ => negb (Text.is_continuation a)
  end.

(** All the patterns [validateNaturalLanguageQuery] tries, in order. *)
Definition all_patterns : list RegExp.t :=
  Safety.TRANSACTION_HISTORY_PATTERNS ++ Safety.dangerousPatterns.

End Query.

(* ===================================================================== *)
(** * Block bounds                                                         *)
(* ===================================================================== *)

Module Bounds.

Import Js Safety.

(** [typeof v === 'bigint'] *)
Definition is_bigint (v : JsValue) : bool :=
  match v with
  | JBigInt _ => true
  | _ => false
  end.

(** [typeof v === 'string' ? parseInt(v, 16) : v] *)
Definition read (bound : JsValue) : JsValue :=
  match bound with
  | JStr s => JNum (Text.parseInt s 16)
  | _ => bound
  end.

(** What the [catch] handler of the range check returns. *)
Definition unable_result : SafetyCheckResult :=
  unsafe_result
    "Unable to validate block range safety"
    "Specify explicit numeric block ranges".

End Bounds.

(* ===================================================================== *)
(** * The tool handlers                                                   *)
(* ===================================================================== *)

(** [handleTransactionTool] and [handleBlockchainTool] are asynchronous
    functions over two service objects whose classes are not part of these
    sources.  A handler is modelled by what it does step by step: it
    returns a response, or throws (the promise it returned is rejected), or
    calls a method of its service and goes on with the value the call
    yields ([await]ed where the source awaits).  A call that itself throws
    or rejects ends the handler with that error; the continuation is for a
    call that answers. *)

Module Handlers.

Import Js Safety.

(** The arguments of a tool call as the server hands them over: a JSON
    object, or nothing. *)
Definition Arguments : Type := option (gmap string JsValue).

(** [args?.key] *)
Definition arg (args : Arguments) (key : string) : JsValue :=
  match args with
  | Some properties => default JUndefined (properties !! key)
  | None => JUndefined
  end.

(** The methods the handlers call on [advancedBlockchain] and on
    [blockchainService], with their arguments. *)
Inductive ServiceCall : Type :=
| getTransaction (blockchain txHash network : JsValue)
| getTransactionReceipt (blockchain txHash network : JsValue)
| estimateGas (blockchain transaction network : JsValue)
| getBlockDetails (blockchain blockNumber includeTransactions network : JsValue)
| searchLogs (blockchain filter network : JsValue)
| executeQuery (query : JsValue)
| getServicesByCategory (category : JsValue)
| getAllServices
| getServiceByBlockchain (blockchain network : JsValue)
| callRPCMethod (serviceId method params : JsValue)
| getServiceMethods (serviceId : JsValue).

(** The text of a response: a string the handler builds, or what
    [JSON.stringify(value, null, 2)] returns when it returns; the layout of
    that text is left uninterpreted. *)
Inductive Text : Type :=
| Literal (s : string)
| JSON_stringify (value : JsValue).

(** [{ content: [{ type: 'text', text }], isError }]; [isError] is absent
    from some responses. *)
Record ToolResponse : Type := {
  text : Text;
  isError : option bool
}.

Inductive Handler : Type :=
| Return (response : option ToolResponse)
| Raise (e : JsError)
| Call (call : ServiceCall) (continue : JsValue -> Handler).

(** [${field}] for an optional string field: [undefined] prints as
    "undefined". *)
Definition interpolate (field : option string) : string :=
  default "undefined"%string field.

(** The response of a handler whose safety check failed; the four places
    that build it differ in the title only. *)
Definition blocked (title : string) (safetyCheck : SafetyCheckResult) : ToolResponse :=
  {| text := Literal
       (title ++ newline ++ newline ++
        "Reason: " ++ interpolate (reason safetyCheck) ++ newline ++ newline ++
        "Suggestion: " ++ interpolate (suggestion safetyCheck) ++ newline ++ newline ++
        "This protection prevents session crashes from large responses.");
     isError := Some true |}.

(** [{ content: [... JSON.stringify(result, null, 2) ...],
       isError: !result.success }]: [JSON.stringify] throws on a BigInt, and
    reading [success] off [undefined] or [null] throws. *)
Definition report (result : JsValue) : Handler :=
  if holds_bigint result then Raise TypeError
  else
    match result with
    | JUndefined | JNull => Raise TypeError
    | _ =>
        Return (Some {| text := JSON_stringify result;
                        isError := Some (negb (ToBoolean (get result "success"))) |})
    end.

(** [{ content: [... JSON.stringify(value, null, 2) ...] }] *)
Definition show (value : JsValue) : Handler :=
  if holds_bigint value then Raise TypeError
  else Return (Some {| text := JSON_stringify value; isError := None |}).

(** The answer with the text
    [`Blockchain service not found: ${blockchain} (${network})`]: the
    template converts both values to Strings, which can throw. *)
Definition not_found (blockchain network : JsValue) : Handler :=
  match bind (ToString blockchain) (fun chain =>
        bind (ToString network) (fun net =>
        Normal ("Blockchain service not found: " ++ chain ++ " (" ++ net ++ ")")%string)) with
  | Normal message => Return (Some {| text := Literal message; isError := Some true |})
  | Throw e => Raise e
  end.

Definition handleTransactionTool (name : string) (args : Arguments) : Handler :=
  if String.eqb name "get_transaction" then
    let blockchain := arg args "blockchain" in
    let txHash := arg args "txHash" in
    let network := or_else (arg args "network") (JStr "mainnet") in
    Call (getTransaction blockchain txHash network) report
  else if String.eqb name "get_transaction_receipt" then
    let blockchain := arg args "blockchain" in
    let txHash := arg args "txHash" in
    let network := or_else (arg args "network") (JStr "mainnet") in
    Call (getTransactionReceipt blockchain txHash network) report
  else if String.eqb name "estimate_gas" then
    let blockchain := arg args "blockchain" in
    let transaction := arg args "transaction" in
    let network := or_else (arg args "network") (JStr "mainnet") in
    Call (estimateGas blockchain transaction network) report
  else if String.eqb name "get_block_details" then
    let blockchain := arg args "blockchain" in
    let blockNumber := arg args "blockNumber" in
    let includeTransactions := or_else (arg args "includeTransactions") (JBool false) in
    let network := or_else (arg args "network") (JStr "mainnet") in
    let safetyCheck :=
      checkBlockQuery "eth_getBlockByNumber" [blockNumber; includeTransactions] None in
    if negb (safe safetyCheck) then
      Return (Some (blocked "⛔ UNSAFE BLOCK QUERY BLOCKED" safetyCheck))
    else
      Call (getBlockDetails blockchain blockNumber includeTransactions network) report
  else if String.eqb name "search_logs" then
    let blockchain := arg args "blockchain" in
    let filter := arg args "filter" in
    let network := or_else (arg args "network") (JStr "mainnet") in
    let safetyCheck := checkLogQuery [filter] None in
    if negb (safe safetyCheck) then
      Return (Some (blocked "⛔ UNSAFE LOG QUERY BLOCKED" safetyCheck))
    else
      Call (searchLogs blockchain filter network) report
  else Return None.

(** [params[0]] and [params[1]], the reads the validators make, of a
    [params] that need not be an array: the code units of a string, the
    properties ["0"] and ["1"] of an object, nothing of another
    primitive. *)
Definition array_like (params : JsValue) : list JsValue :=
  match params with
  | JArr elements => elements
  | JStr s => List.map JStr (Text.units (list_ascii_of_string s))
  | JObj properties =>
      [default JUndefined (properties !! "0"%string);
       default JUndefined (properties !! "1"%string)]
  | _ => []
  end.

(** [validateRPCCall(blockchain, method, params)] on arguments whose types
    nothing has checked: a method that is not a string belongs to no set of
    strings.  The validator does not read [blockchain], which is passed on
    as it is when it is a string and has no part in the result otherwise. *)
Definition validate_call (blockchain method params : JsValue) : SafetyCheckResult :=
  match method with
  | JStr m =>
      validateRPCCall (match blockchain with JStr chain => chain | _ => ""%string end)
        m (array_like params) None
  | _ => safe_result
  end.

(** In [query_blockchain] the first thing [validateNaturalLanguageQuery]
    does with the query is [pattern.test(query)], which converts it to a
    String. *)
Definition handleBlockchainTool (name : string) (args : Arguments) : Handler :=
  if String.eqb name "query_blockchain" then
    let query := arg args "query" in
    match ToString query with
    | Throw e => Raise e
    | Normal text =>
        let safetyCheck := validateNaturalLanguageQuery text None in
        if negb (safe safetyCheck) then
          Return (Some (blocked "⛔ UNSAFE QUERY BLOCKED" safetyCheck))
        else
          Call (executeQuery query) report
    end
  else if String.eqb name "list_blockchain_services" then
    let category := arg args "category" in
    if ToBoolean category then Call (getServicesByCategory category) show
    else Call getAllServices show
  else if String.eqb name "get_blockchain_service" then
    let blockchain := arg args "blockchain" in
    let network := or_else (arg args "network") (JStr "mainnet") in
    Call (getServiceByBlockchain blockchain network) (fun service =>
    if negb (ToBoolean service) then not_found blockchain network
    else show service)
  else if String.eqb name "call_rpc_method" then
    let blockchain := arg args "blockchain" in
    let method := arg args "method" in
    let params := or_else (arg args "params") (JArr []) in
    let network := or_else (arg args "network") (JStr "mainnet") in
    let safetyCheck := validate_call blockchain method params in
    if negb (safe safetyCheck) then
      Return (Some (blocked "⛔ UNSAFE RPC CALL BLOCKED" safetyCheck))
    else
      Call (getServiceByBlockchain blockchain network) (fun service =>
      if negb (ToBoolean service) then not_found blockchain network
      else Call (callRPCMethod (get service "id") method params) report)
  else if String.eqb name "get_supported_methods" then
    let blockchain := arg args "blockchain" in
    let network := or_else (arg args "network") (JStr "mainnet") in
    Call (getServiceByBlockchain blockchain network) (fun service =>
    if negb (ToBoolean service) then not_found blockchain network
    else Call (getServiceMethods (get service "id")) show)
  else Return None.

(** The service calls a handler makes, in order, when the service answers
    each call with what [answers] gives. *)
Fixpoint calls (h : Handler) (answers : list JsValue) : list ServiceCall :=
  match h, answers with
  | Call call continue, answer :: rest => call :: calls (continue answer) rest
  | Call call _, [] => [call]
  | _, _ => []
  end.

End Handlers.

(* ===================================================================== *)
(** * The tool registries                                                 *)
(* ===================================================================== *)

Module Registry.

Import Js.

(** A [Tool]: its name, its description and its JSON schema. *)
Record Tool : Type := {
  name : string;
  description : string;
  inputSchema : JsValue
}.

Definition str (s : string) : JsValue := JStr s.

(** A word between double quotes, as the descriptions have some. *)
Definition quoted (s : string) : string :=
  (String (ascii_of_N 34) s ++ String (ascii_of_N 34) EmptyString)%string.

(** [registerTransactionHandlers(server, advancedBlockchain)]: neither
    argument is used; the function returns this list. *)
Definition registerTransactionHandlers : list Tool := [
  {| name := "get_transaction";
     description := "Get transaction details by transaction hash";
     inputSchema := object [
       ("type", str "object");
       ("properties", object [
          ("blockchain", object [("type", str "string"); ("description", str "Blockchain name")]);
          ("txHash", object [("type", str "string"); ("description", str "Transaction hash")]);
          ("network", object [
             ("type", str "string");
             ("enum", JArr [str "mainnet"; str "testnet"]);
             ("description", str "Network type (defaults to mainnet)")])]);
       ("required", JArr [str "blockchain"; str "txHash"])] |};
  {| name := "get_transaction_receipt";
     description := "Get transaction receipt with status, gas used, and logs";
     inputSchema := object [
       ("type", str "object");
       ("properties", object [
          ("blockchain", object [("type", str "string"); ("description", str "Blockchain name")]);
          ("txHash", object [("type", str "string"); ("description", str "Transaction hash")]);
          ("network", object [
             ("type", str "string");
             ("enum", JArr [str "mainnet"; str "testnet"]);
             ("description", str "Network type (defaults to mainnet)")])]);
       ("required", JArr [str "blockchain"; str "txHash"])] |};
  {| name := "estimate_gas";
     description := "Estimate gas required for a transaction";
     inputSchema := object [
       ("type", str "object");
       ("properties", object [
          ("blockchain", object [("type", str "string"); ("description", str "Blockchain name")]);
          ("transaction", object [
             ("type", str "object");
             ("description", str "Transaction object with from, to, data, value, etc.")]);
          ("network", object [
             ("type", str "string");
             ("enum", JArr [str "mainnet"; str "testnet"]);
             ("description", str "Network type (defaults to mainnet)")])]);
       ("required", JArr [str "blockchain"; str "transaction"])] |};
  {| name := "get_block_details";
     description := "Get detailed block information with optional transaction list";
     inputSchema := object [
       ("type", str "object");
       ("properties", object [
          ("blockchain", object [("type", str "string"); ("description", str "Blockchain name")]);
          ("blockNumber", object [
             ("description", str ("Block number (number or " ++ quoted "latest" ++ ", " ++ quoted "earliest" ++ ", " ++ quoted "pending" ++ ")"))]);
          ("includeTransactions", object [
             ("type", str "boolean");
             ("description", str "Include full transaction objects (default: false)")]);
          ("network", object [
             ("type", str "string");
             ("enum", JArr [str "mainnet"; str "testnet"]);
             ("description", str "Network type (defaults to mainnet)")])]);
       ("required", JArr [str "blockchain"; str "blockNumber"])] |};
  {| name := "search_logs";
     description := "Search event logs by address and topics";
     inputSchema := object [
       ("type", str "object");
       ("properties", object [
          ("blockchain", object [("type", str "string"); ("description", str "Blockchain name")]);
          ("filter", object [
             ("type", str "object");
             ("description", str "Log filter with fromBlock, toBlock, address, topics")]);
          ("network", object [
             ("type", str "string");
             ("enum", JArr [str "mainnet"; str "testnet"]);
             ("description", str "Network type (defaults to mainnet)")])]);
       ("required", JArr [str "blockchain"; str "filter"])] |}
]%string.

(** [registerBlockchainHandlers(server, blockchainService)], likewise. *)
Definition registerBlockchainHandlers : list Tool := [
  {| name := "query_blockchain";
     description := ("Execute a natural language query to interact with blockchain data (e.g., " ++ quoted "get the latest height for ethereum" ++ ")");
     inputSchema := object [
       ("type", str "object");
       ("properties", object [
          ("query", object [
             ("type", str "string");
             ("description", str "Natural language query describing what you want to do")])]);
       ("required", JArr [str "query"])] |};
  {| name := "list_blockchain_services";
     description := "List all available blockchain services/networks supported by Pocket Network";
     inputSchema := object [
       ("type", str "object");
       ("properties", object [
          ("category", object [
             ("type", str "string");
             ("description", str ("Optional category filter (e.g., " ++ quoted "evm" ++ ", " ++ quoted "layer2" ++ ", " ++ quoted "non-evm" ++ ")"))])])] |};
  {| name := "get_blockchain_service";
     description := "Get details about a specific blockchain service including supported RPC methods";
     inputSchema := object [
       ("type", str "object");
       ("properties", object [
          ("blockchain", object [
             ("type", str "string");
             ("description", str ("Blockchain name (e.g., " ++ quoted "ethereum" ++ ", " ++ quoted "polygon" ++ ", " ++ quoted "solana" ++ ")"))]);
          ("network", object [
             ("type", str "string");
             ("enum", JArr [str "mainnet"; str "testnet"]);
             ("description", str "Network type (defaults to mainnet)")])]);
       ("required", JArr [str "blockchain"])] |};
  {| name := "call_rpc_method";
     description := "Call a JSON-RPC method on a specific blockchain service";
     inputSchema := object [
       ("type", str "object");
       ("properties", object [
          ("blockchain", object [
             ("type", str "string");
             ("description", str ("Blockchain name (e.g., " ++ quoted "ethereum" ++ ", " ++ quoted "polygon" ++ ")"))]);
          ("method", object [
             ("type", str "string");
             ("description", str ("RPC method name (e.g., " ++ quoted "eth_blockNumber" ++ ", " ++ quoted "eth_getBalance" ++ ")"))]);
          ("params", object [
             ("type", str "array");
             ("description", str "Array of parameters for the RPC method")]);
          ("network", object [
             ("type", str "string");
             ("enum", JArr [str "mainnet"; str "testnet"]);
             ("description", str "Network type (defaults to mainnet)")])]);
       ("required", JArr [str "blockchain"; str "method"])] |};
  {| name := "get_supported_methods";
     description := "Get all supported RPC methods for a specific blockchain service";
     inputSchema := object [
       ("type", str "object");
       ("properties", object [
          ("blockchain", object [("type", str "string"); ("description", str "Blockchain name")]);
          ("network", object [
             ("type", str "string");
             ("enum", JArr [str "mainnet"; str "testnet"]);
             ("description", str "Network type (defaults to mainnet)")])]);
       ("required", JArr [str "blockchain"])] |}
]%string.

End Registry.

(* ===================================================================== *)
(** * Facts about the matcher                                             *)
(* ===================================================================== *)

Module RegExpFacts.

Import RegExp.

Section Matching.

Variable i : bool.

Lemma matches_void_inv w : ~ matches i Void w.
Proof. intros H; inversion H. Qed.

Lemma matches_eps_inv w : matches i Eps w -> w = [].
Proof. intros H; inversion H; reflexivity. Qed.

Lemma matches_cat_inv r1 r2 w :
  matches i (Cat r1 r2) w ->
  exists w1 w2, w = w1 ++ w2 /\ matches i r1 w1 /\ matches i r2 w2.
Proof. intros H; inversion H; subst; eauto. Qed.

Lemma matches_alt_inv r1 r2 w :
  matches i (Alt r1 r2) w -> matches i r1 w \/ matches i r2 w.
Proof. intros H; inversion H; subst; auto. Qed.

Lemma matches_unit_inv p w : matches i (Unit p) w -> completes p w = true.
Proof. intros H; inversion H; assumption. Qed.

Lemma nullable_matches r : nullable r = true <-> matches i r [].
Proof.
  induction r as [| | c | p | r1 IH1 r2 IH2 | r1 IH1 r2 IH2 | r IH]; cbn [nullable].
  - split; [discriminate | intros H; inversion H].
  - split; [intros _; constructor | reflexivity].
  - split; [discriminate | intros H; inversion H].
  - split; [apply m_unit | apply matches_unit_inv].
  - rewrite orb_true_iff, IH1, IH2. split.
    + intros [H | H]; [apply m_alt_l | apply m_alt_r]; exact H.
    + apply matches_alt_inv.
  - rewrite andb_true_iff, IH1, IH2. split.
    + intros [H1 H2]. change (@nil ascii) with (@nil ascii ++ []). now constructor.
    + intros H. apply matches_cat_inv in H as (w1 & w2 & E & H1 & H2).
      symmetry in E. apply app_eq_nil in E as [-> ->]. now split.
  - split; [intros _; constructor | reflexivity].
Qed.

Lemma matches_alt r1 r2 w :
  matches i (alt r1 r2) w <-> matches i r1 w \/ matches i r2 w.
Proof.
  split.
  - intros H.
    destruct r1, r2; simpl in H;
      try (apply matches_alt_inv in H; exact H); auto.
  - intros [H | H].
    + destruct r1, r2; simpl;
        try (exfalso; eapply matches_void_inv; exact H);
        try exact H; now apply m_alt_l.
    + destruct r1, r2; simpl;
        try (exfalso; eapply matches_void_inv; exact H);
        try exact H; now apply m_alt_r.
Qed.

Lemma matches_cat r1 r2 w :
  matches i (cat r1 r2) w <->
  exists w1 w2, w = w1 ++ w2 /\ matches i r1 w1 /\ matches i r2 w2.
Proof.
  split.
  - intros H.
    destruct r1, r2; simpl in H;
      try (exfalso; eapply matches_void_inv; exact H);
      try (apply matches_cat_inv in H; exact H);
      (exists [], w; repeat split; [constructor | exact H]).
  - intros (w1 & w2 & -> & H1 & H2).
    destruct r1, r2; simpl;
      try (exfalso; eapply matches_void_inv; eassumption);
      try (now constructor);
      (apply matches_eps_inv in H1; subst w1; exact H2).
Qed.

(** A non-empty word of [r*] starts with a non-empty word of [r]. *)
Lemma matches_star_cons r a w :
  matches i (Star r) (a :: w) ->
  exists w1 w2, w = w1 ++ w2 /\ matches i r (a :: w1) /\ matches i (Star r) w2.
Proof.
  intros H.
  remember (Star r) as r' eqn:Er.
  remember (a :: w) as aw eqn:Ew.
  revert w Er Ew.
  induction H as [| | | | | | r0 | r0 w1 w2 H1 _ H2 IH2];
    intros v Er Ew; try discriminate Er; try discriminate Ew.
  injection Er as ->.
  destruct w1 as [| b w1'].
  - simpl in Ew. apply IH2; [reflexivity | exact Ew].
  - simpl in Ew. injection Ew as -> <-.
    exists w1', w2. auto.
Qed.

Lemma deriv_matches a r w : matches i (deriv i a r) w <-> matches i r (a :: w).
Proof.
  revert w.
  induction r as [| | c | p | r1 IH1 r2 IH2 | r1 IH1 r2 IH2 | r IH]; intros w;
    cbn [deriv].
  - split; intros H; inversion H.
  - split; intros H; inversion H.
  - destruct (char_matches i c a) eqn:E.
    + split.
      * intros H. apply matches_eps_inv in H as ->. now constructor.
      * intros H. inversion H; subst. constructor.
    + split; intros H; inversion H; subst; congruence.
  - split.
    + intros H. apply m_unit. cbn [completes].
      destruct (step p a) as [p' |]; [now apply matches_unit_inv | inversion H].
    + intros H. apply matches_unit_inv in H. cbn [completes] in H.
      destruct (step p a) as [p' |]; [now apply m_unit | discriminate H].
  - rewrite matches_alt, IH1, IH2. split.
    + intros [H | H]; [apply m_alt_l | apply m_alt_r]; exact H.
    + apply matches_alt_inv.
  - assert (Hcat : matches i (cat (deriv i a r1) r2) w <->
                   exists w1 w2, w = w1 ++ w2 /\ matches i r1 (a :: w1) /\ matches i r2 w2).
    { rewrite matches_cat. split.
      - intros (w1 & w2 & E & H1 & H2). exists w1, w2. rewrite <- IH1. auto.
      - intros (w1 & w2 & E & H1 & H2). exists w1, w2. rewrite IH1. auto. }
    destruct (nullable r1) eqn:N.
    + rewrite matches_alt, Hcat, IH2. split.
      * intros [(w1 & w2 & -> & H1 & H2) | H].
        -- change (a :: w1 ++ w2) with ((a :: w1) ++ w2). now constructor.
        -- change (a :: w) with ([] ++ a :: w). constructor; [| exact H].
           now apply nullable_matches.
      * intros H. apply matches_cat_inv in H as (w1 & w2 & E & H1 & H2).
        destruct w1 as [| b w1'].
        -- simpl in E. subst w2. now right.
        -- simpl in E. injection E as <- ->. left. eauto.
    + rewrite Hcat. split.
      * intros (w1 & w2 & -> & H1 & H2).
        change (a :: w1 ++ w2) with ((a :: w1) ++ w2). now constructor.
      * intros H. apply matches_cat_inv in H as (w1 & w2 & E & H1 & H2).
        destruct w1 as [| b w1'].
        -- apply nullable_matches in H1. congruence.
        -- simpl in E. injection E as <- ->. eauto.
  - rewrite matches_cat. split.
    + intros (w1 & w2 & -> & H1 & H2). apply IH in H1.
      change (a :: w1 ++ w2) with ((a :: w1) ++ w2). now constructor.
    + intros H. apply matches_star_cons in H as (w1 & w2 & -> & H1 & H2).
      exists w1, w2. rewrite IH. auto.
Qed.

Lemma match_prefix_spec r s :
  match_prefix i r s = true <-> exists w rest, s = w ++ rest /\ matches i r w.
Proof.
  revert r. induction s as [| a s IH]; intros r; simpl.
  - rewrite orb_false_r, nullable_matches. split.
    + intros H. exists [], []. auto.
    + intros (w & rest & E & H). symmetry in E. apply app_eq_nil in E as [-> _]. exact H.
  - rewrite orb_true_iff, nullable_matches, IH. split.
    + intros [H | (w & rest & -> & H)].
      * exists [], (a :: s). auto.
      * exists (a :: w), rest. split; [reflexivity |]. now apply deriv_matches.
    + intros (w & rest & E & H). destruct w as [| b w].
      * now left.
      * simpl in E. injection E as <- ->. right.
        exists w, rest. split; [reflexivity |]. now apply deriv_matches.
Qed.

Lemma search_spec r s :
  search i r s = true <->
  exists before w after, s = before ++ w ++ after /\ matches i r w.
Proof.
  induction s as [| a s IH]; cbn [search].
  - rewrite orb_false_r, match_prefix_spec. split.
    + intros (w & rest & E & H). exists [], w, rest. auto.
    + intros (before & w & after & E & H).
      symmetry in E. apply app_eq_nil in E as [-> E]. eauto.
  - rewrite orb_true_iff, match_prefix_spec, IH. split.
    + intros [(w & rest & E & H) | (before & w & after & -> & H)].
      * exists [], w, rest. auto.
      * exists (a :: before), w, after. auto.
    + intros (before & w & after & E & H). destruct before as [| b before].
      * left. exists w, after. auto.
      * simpl in E. injection E as <- ->. right. exists before, w, after. auto.
Qed.

End Matching.

(** [test] answers [true] exactly when some substring is a word of the
    pattern. *)
Lemma test_found_in regexp str : test regexp str = true <-> found_in regexp str.
Proof. unfold test, found_in. apply search_spec. Qed.

End RegExpFacts.

(* ===================================================================== *)
(** * Properties of the safety checks                                     *)
(* ===================================================================== *)

Import Js Safety.

(** ** The dangerous-method set and the dispatch of [validateRPCCall] *)

Lemma isDangerousMethod_cases method :
  isDangerousMethod method = true ->
  method = "eth_getBlockByNumber"%string \/ method = "eth_getBlockByHash"%string \/
  method = "eth_getLogs"%string \/ method = "eth_getTransactionReceipt"%string \/
  method = "debug_traceTransaction"%string \/ method = "trace_block"%string \/
  method = "trace_transaction"%string.
Proof.
  unfold isDangerousMethod, DANGEROUS_METHODS. intros H.
  apply bool_decide_eq_true_1 in H.
  rewrite elem_of_list_to_set in H.
  repeat (apply elem_of_cons in H as [H | H]; [auto 10 |]).
  apply elem_of_nil in H. contradiction.
Qed.

(** C5: a method outside the dangerous set is safe, whatever the chain,
    the parameters and the configuration; the parameters are not looked
    at. *)
Theorem validateRPCCall_non_dangerous_safe
    (blockchain method : string) (params : list JsValue) (config : option SafetyConfig) :
  isDangerousMethod method = false ->
  validateRPCCall blockchain method params config = safe_result.
Proof. intros H. unfold validateRPCCall. rewrite H. reflexivity. Qed.

Lemma validateRPCCall_non_dangerous_safe_witness :
  validateRPCCall "ethereum" "eth_blockNumber" [JStr "latest"; JBool true]
    (Some DEFAULT_SAFETY_CONFIG) = safe_result.
Proof. apply validateRPCCall_non_dangerous_safe. vm_compute. reflexivity. Defined.

(** C6: a dangerous method that is none of the three with a validator of
    its own is blocked with the generic reason and suggestion, whatever
    the parameters and the configuration. *)
Theorem validateRPCCall_other_dangerous_blocked
    (blockchain method : string) (params : list JsValue) (config : option SafetyConfig) :
  isDangerousMethod method = true ->
  method <> "eth_getBlockByNumber"%string ->
  method <> "eth_getBlockByHash"%string ->
  method <> "eth_getLogs"%string ->
  validateRPCCall blockchain method params config =
    unsafe_result
      ("Method " ++ method ++ " can return extremely large responses")
      "Use safer alternatives or fetch data from a block explorer API".
Proof.
  intros Hd H1 H2 H3. unfold validateRPCCall. rewrite Hd.
  apply isDangerousMethod_cases in Hd.
  destruct Hd as [-> | [-> | [-> | [-> | [-> | [-> | ->]]]]]];
    try contradiction; reflexivity.
Qed.

Lemma validateRPCCall_other_dangerous_blocked_witness :
  validateRPCCall "ethereum" "debug_traceTransaction" [JStr "0xabc"] None =
    unsafe_result
      "Method debug_traceTransaction can return extremely large responses"
      "Use safer alternatives or fetch data from a block explorer API".
Proof.
  apply (validateRPCCall_other_dangerous_blocked "ethereum" "debug_traceTransaction");
    [vm_compute; reflexivity | discriminate | discriminate | discriminate].
Defined.

(** ** Block queries *)

(** C2: on [eth_getBlockByNumber] and [eth_getBlockByHash], a second
    parameter that is [true] makes the verdict unsafe under every
    configuration: with [allowBlocksWithTransactions] false the policy
    reason is given, with it true the crash-risk reason, never a safe
    verdict. *)
Theorem checkBlockQuery_full_transactions_unsafe
    (method : string) (params : list JsValue) (config : option SafetyConfig) :
  method = "eth_getBlockByNumber"%string \/ method = "eth_getBlockByHash"%string ->
  index params 1 = JBool true ->
  safe (checkBlockQuery method params config) = false /\
  checkBlockQuery method params config =
    if allowBlocksWithTransactions (or_default config) then
      unsafe_result
        "Blocks can contain 100+ transactions, causing session crashes"
        "Query specific transactions by hash instead, or use a block explorer API"
    else
      unsafe_result
        "Requesting blocks with full transactions is disabled to prevent context overflow"
        "Use eth_getBlockByNumber with false parameter to get block without transactions, or query specific transactions by hash".
Proof.
  intros Hm Hp. unfold checkBlockQuery. rewrite Hp.
  assert (E : String.eqb method "eth_getBlockByNumber"
              || String.eqb method "eth_getBlockByHash" = true).
  { destruct Hm as [-> | ->]; reflexivity. }
  rewrite E. cbn [strict_eq_true andb].
  destruct (allowBlocksWithTransactions (or_default config)); split; reflexivity.
Qed.

Lemma checkBlockQuery_full_transactions_unsafe_witness :
  safe (checkBlockQuery "eth_getBlockByHash" [JStr "0xabc"; JBool true]
          (Some {| maxTransactionsPerBlock := Number.of_Z 10;
                   maxBlockRange := Number.of_Z 10;
                   maxResponseSizeEstimate := Number.of_Z 500;
                   allowBlocksWithTransactions := true |})) = false.
Proof.
  apply checkBlockQuery_full_transactions_unsafe; [right; reflexivity | reflexivity].
Defined.

(** C10: only the boolean [true] in second position asks for full
    transactions.  With any other value there (or none), and for every
    other method, the verdict is safe under every configuration. *)
Theorem checkBlockQuery_safe_otherwise
    (method : string) (params : list JsValue) (config : option SafetyConfig) :
  (method <> "eth_getBlockByNumber"%string /\ method <> "eth_getBlockByHash"%string) \/
  index params 1 <> JBool true ->
  checkBlockQuery method params config = safe_result.
Proof.
  intros H. unfold checkBlockQuery.
  destruct (String.eqb_spec method "eth_getBlockByNumber") as [E1 | E1];
    destruct (String.eqb_spec method "eth_getBlockByHash") as [E2 | E2];
    cbn [orb]; try reflexivity.
  all: assert (Hp : strict_eq_true (index params 1) = false)
    by (destruct H as [[H1 H2] | H]; [contradiction |];
        destruct (index params 1) as [| | [] | | | | |]; try reflexivity; contradiction).
  all: rewrite Hp; reflexivity.
Qed.

Lemma checkBlockQuery_safe_otherwise_witness :
  checkBlockQuery "eth_getBlockByNumber" [JStr "latest"; JStr "true"] None = safe_result.
Proof. apply checkBlockQuery_safe_otherwise. right. discriminate. Defined.

Example checkBlockQuery_flag_true_default :
  checkBlockQuery "eth_getBlockByNumber" [JStr "latest"; JBool true]
    (Some DEFAULT_SAFETY_CONFIG) =
  unsafe_result
    "Requesting blocks with full transactions is disabled to prevent context overflow"
    "Use eth_getBlockByNumber with false parameter to get block without transactions, or query specific transactions by hash".
Proof. reflexivity. Qed.

Example checkBlockQuery_flag_false :
  checkBlockQuery "eth_getBlockByNumber" [JStr "latest"; JBool false] None = safe_result.
Proof. reflexivity. Qed.

Example checkBlockQuery_flag_absent :
  checkBlockQuery "eth_getBlockByNumber" [JStr "latest"] None = safe_result.
Proof. reflexivity. Qed.

Example checkBlockQuery_flag_one :
  checkBlockQuery "eth_getBlockByHash" [JStr "0xabc"; JNum (Number.of_Z 1)] None = safe_result.
Proof. reflexivity. Qed.

Example checkBlockQuery_other_method :
  checkBlockQuery "eth_getLogs" [JStr "latest"; JBool true] None = safe_result.
Proof. reflexivity. Qed.

(** ** Log queries: the range check *)

Lemma subtract_NaN_r x : Number.subtract x Number.NaN = Number.NaN.
Proof. destruct x; reflexivity. Qed.

Lemma subtract_NaN_l y : Number.subtract Number.NaN y = Number.NaN.
Proof. reflexivity. Qed.

Lemma lessThan_NaN_r x : Number.lessThan x Number.NaN = false.
Proof. destruct x; reflexivity. Qed.

(** *** Conversions that throw *)

Lemma ToString_unconvertible :
  forall v, ToString v = Throw TypeError <-> unconvertible v = true.
Proof.
  fix IH 1. intros [| | b | x | z | s | elements | properties];
    cbn [ToString unconvertible]; try (split; discriminate).
  - match goal with |- context [bind (?j elements) _] => set (join := j) end.
    assert (J : join elements = Throw TypeError <-> existsb unconvertible elements = true).
    { induction elements as [| e rest IHrest]; [split; discriminate |].
      cbn [existsb]. rewrite orb_true_iff, <- IHrest, <- (IH e).
      change (join (e :: rest))
        with (bind (match e with
                    | JUndefined | JNull => Normal ""%string
                    | _ => ToString e
                    end) (fun next =>
              bind (join rest) (fun parts => Normal (next :: parts)))).
      assert (C : match e with
                  | JUndefined | JNull => Normal ""%string
                  | _ => ToString e
                  end = Throw TypeError <-> ToString e = Throw TypeError)
        by (destruct e; cbn [ToString]; intuition congruence).
      rewrite <- C.
      destruct (match e with JUndefined | JNull => Normal ""%string | _ => ToString e end)
        as [next | []]; cbn [bind]; [| intuition congruence].
      destruct (join rest) as [parts | []]; cbn [bind]; intuition congruence. }
    rewrite <- J. destruct (join elements) as [parts | []]; cbn [bind];
      split; (discriminate || reflexivity).
  - destruct (has_own properties "toString"); split; (discriminate || reflexivity).
Qed.

Lemma ToString_convertible v :
  unconvertible v = false -> exists s, ToString v = Normal s.
Proof.
  intros H. destruct (ToString v) as [s | []] eqn:E; [eauto |].
  apply ToString_unconvertible in E. congruence.
Qed.

Lemma ToNumeric_unconvertible v :
  ToNumeric v = Throw TypeError <-> unconvertible v = true.
Proof.
  destruct v as [| | b | x | z | s | elements | properties];
    try (split; discriminate).
  - rewrite <- ToString_unconvertible. unfold ToNumeric.
    destruct (ToString (JArr elements)) as [s | []]; cbn [bind];
      split; (discriminate || reflexivity).
  - rewrite <- ToString_unconvertible. unfold ToNumeric.
    destruct (ToString (JObj properties)) as [s | []]; cbn [bind];
      split; (discriminate || reflexivity).
Qed.

(** What converts gives a BigInt exactly when it is one. *)
Lemma ToNumeric_convertible v :
  unconvertible v = false ->
  exists n, ToNumeric v = Normal n /\
            match n with Big _ => Bounds.is_bigint v = true | Num _ => Bounds.is_bigint v = false end.
Proof.
  intros H. destruct (ToNumeric v) as [n | []] eqn:E.
  - exists n. split; [reflexivity |].
    destruct v as [| | b | x | z | s | elements | properties];
      cbn [ToNumeric] in E; try (injection E as <-; reflexivity).
    + destruct (ToString (JArr elements)); cbn [bind] in E; [| discriminate E].
      injection E as <-. reflexivity.
    + destruct (ToString (JObj properties)); cbn [bind] in E; [| discriminate E].
      injection E as <-. reflexivity.
  - apply ToNumeric_unconvertible in E. congruence.
Qed.

(** [-] throws exactly when an operand cannot be converted, or when one
    operand is a BigInt and the other is not. *)
Lemma subtract_throws a b :
  (exists e, subtract a b = Throw e) <->
  unconvertible a || unconvertible b
    || xorb (Bounds.is_bigint a) (Bounds.is_bigint b) = true.
Proof.
  unfold subtract.
  destruct (unconvertible a) eqn:Ua.
  { rewrite (proj2 (ToNumeric_unconvertible a) Ua). cbn [bind orb]. split; eauto. }
  destruct (ToNumeric_convertible a Ua) as (x & -> & Hx).
  destruct (unconvertible b) eqn:Ub; cbn [bind orb].
  { rewrite (proj2 (ToNumeric_unconvertible b) Ub). cbn [bind]. split; eauto. }
  destruct (ToNumeric_convertible b Ub) as (y & -> & Hy). cbn [bind].
  destruct x, y; rewrite Hx, Hy; cbn [xorb]; split;
    try (intros [e H]; discriminate H); try discriminate; eauto.
Qed.

(** *** The range check *)

Lemma read_bound v :
  (if is_string v then bind (parseInt v 16) (fun n => Normal (JNum n)) else Normal v) =
  Normal (Bounds.read v).
Proof. destruct v; reflexivity. Qed.

(** The check in terms of its two bounds as read. *)
Lemma checkBlockRange_read fromBlock toBlock config :
  checkBlockRange fromBlock toBlock config =
    if ToBoolean fromBlock && ToBoolean toBlock && negb (strict_eq_string toBlock "latest") then
      match subtract (Bounds.read toBlock) (Bounds.read fromBlock) with
      | Normal range =>
          if greaterThan range (maxBlockRange config) then
            Some (unsafe_result
                    ("Block range " ++ numeric_toString range ++ " exceeds maximum "
                       ++ Number.toString (maxBlockRange config))
                    "Reduce the block range or use pagination")
          else None
      | Throw _ => Some Bounds.unable_result
      end
    else None.
Proof.
  unfold checkBlockRange. rewrite !read_bound. cbn [bind].
  destruct (ToBoolean fromBlock && ToBoolean toBlock
            && negb (strict_eq_string toBlock "latest")); [| reflexivity].
  destruct (subtract _ _) as [range | e]; cbn [bind try_catch]; [| reflexivity].
  destruct (greaterThan range (maxBlockRange config)); reflexivity.
Qed.

(** Whatever the range check returns is an unsafe result with its two
    texts. *)
Lemma checkBlockRange_returns_unsafe fromBlock toBlock config r :
  checkBlockRange fromBlock toBlock config = Some r ->
  safe r = false /\ result_invariant r = true.
Proof.
  rewrite checkBlockRange_read.
  destruct (ToBoolean fromBlock && ToBoolean toBlock
            && negb (strict_eq_string toBlock "latest")); [| discriminate].
  destruct (subtract _ _) as [range | e].
  - destruct (greaterThan range (maxBlockRange config)); [| discriminate].
    intros [= <-]. split; reflexivity.
  - intros [= <-]. split; reflexivity.
Qed.

(** The range check is skipped when [toBlock] is missing (it then defaults
    to ['latest']) or is ['latest'], and when [fromBlock] is falsy. *)
Lemma checkBlockRange_skipped_latest fromBlock toBlock config :
  ToBoolean toBlock = false \/ toBlock = JStr "latest" ->
  checkBlockRange fromBlock (or_else toBlock (JStr "latest")) config = None.
Proof.
  intros H. unfold checkBlockRange, or_else.
  destruct H as [H | ->].
  - rewrite H. cbn. rewrite andb_false_r. reflexivity.
  - cbn. rewrite andb_false_r. reflexivity.
Qed.

Lemma checkBlockRange_skipped_from fromBlock toBlock config :
  ToBoolean fromBlock = false ->
  checkBlockRange fromBlock toBlock config = None.
Proof. intros H. unfold checkBlockRange. rewrite H. reflexivity. Qed.

(** Two string bounds never reach the [catch] handler: [parseInt] returns
    a Number for every string, and a [NaN] on either side makes the range
    [NaN], which exceeds nothing. *)
Lemma checkBlockRange_strings (from to : string) config :
  checkBlockRange (JStr from) (JStr to) config =
    if negb (String.eqb from "") && negb (String.eqb to "")
       && negb (String.eqb to "latest") then
      let range := Number.subtract (Text.parseInt to 16) (Text.parseInt from 16) in
      if Number.lessThan (maxBlockRange config) range then
        Some (unsafe_result
                ("Block range " ++ Number.toString range ++ " exceeds maximum "
                   ++ Number.toString (maxBlockRange config))
                "Reduce the block range or use pagination")
      else None
    else None.
Proof. rewrite checkBlockRange_read. reflexivity. Qed.

Lemma checkBlockRange_unparseable (from to : string) config :
  Text.parseInt from 16 = Number.NaN \/ Text.parseInt to 16 = Number.NaN ->
  checkBlockRange (JStr from) (JStr to) config = None.
Proof.
  intros H. rewrite checkBlockRange_strings.
  destruct (negb (String.eqb from "") && negb (String.eqb to "")
            && negb (String.eqb to "latest")); [| reflexivity].
  cbv zeta.
  destruct H as [-> | ->];
    rewrite ?subtract_NaN_r, ?subtract_NaN_l, lessThan_NaN_r; reflexivity.
Qed.

(** Two Number bounds: the check runs when both are truthy (neither zero
    nor [NaN]) and compares [to - from] with the ceiling. *)
Lemma checkBlockRange_numbers (from to : number) config :
  checkBlockRange (JNum from) (JNum to) config =
    if Number.truthy from && Number.truthy to then
      let range := Number.subtract to from in
      if Number.lessThan (maxBlockRange config) range then
        Some (unsafe_result
                ("Block range " ++ Number.toString range ++ " exceeds maximum "
                   ++ Number.toString (maxBlockRange config))
                "Reduce the block range or use pagination")
      else None
    else None.
Proof.
  rewrite checkBlockRange_read. cbn [ToBoolean strict_eq_string negb].
  rewrite andb_true_r. reflexivity.
Qed.

(** A bound as read throws in [-] exactly when the bound itself would: a
    string is read to a Number. *)
Lemma read_unconvertible v : unconvertible (Bounds.read v) = unconvertible v.
Proof. destruct v; reflexivity. Qed.

Lemma read_is_bigint v : Bounds.is_bigint (Bounds.read v) = Bounds.is_bigint v.
Proof. destruct v; reflexivity. Qed.

(** The [catch] handler of the range check answers only for a bound that
    cannot be converted to a primitive, or when exactly one of the two
    bounds is a BigInt; no string gets there, whatever it spells. *)
Lemma checkBlockRange_catch fromBlock toBlock config r :
  checkBlockRange fromBlock toBlock config = Some r ->
  reason r = Some "Unable to validate block range safety"%string ->
  unconvertible fromBlock || unconvertible toBlock
    || xorb (Bounds.is_bigint fromBlock) (Bounds.is_bigint toBlock) = true.
Proof.
  rewrite checkBlockRange_read.
  destruct (ToBoolean fromBlock && ToBoolean toBlock
            && negb (strict_eq_string toBlock "latest")); [| discriminate].
  destruct (subtract _ _) as [range | e] eqn:E.
  - destruct (greaterThan range (maxBlockRange config)); [| discriminate].
    intros [= <-]. discriminate.
  - intros _ _.
    assert (H : exists e, subtract (Bounds.read toBlock) (Bounds.read fromBlock) = Throw e)
      by eauto.
    apply subtract_throws in H.
    rewrite !read_unconvertible, !read_is_bigint in H.
    destruct (unconvertible fromBlock), (unconvertible toBlock),
             (Bounds.is_bigint fromBlock), (Bounds.is_bigint toBlock);
      cbn in *; congruence.
Qed.

(** ** Log queries: the verdict *)

(** The verdict of [checkLogQuery] on a filter that is present. *)
Lemma checkLogQuery_present params config :
  ToBoolean (index params 0) = true ->
  let filter := index params 0 in
  checkLogQuery params config =
    match checkBlockRange (get filter "fromBlock")
            (or_else (get filter "toBlock") (JStr "latest")) (or_default config) with
    | Some result => result
    | None =>
        if negb (ToBoolean (get filter "address")) && negb (ToBoolean (get filter "topics"))
        then unrestricted_result
        else safe_result
    end.
Proof. intros H. unfold checkLogQuery. rewrite H. reflexivity. Qed.

(** C3, where it fails: with no filter at all (hence neither an address
    nor topics) the verdict is safe, by the guard that opens
    [checkLogQuery]. *)
Lemma checkLogQuery_absent_filter_safe :
  get (index [] 0) "address" = JUndefined /\
  get (index [] 0) "topics" = JUndefined /\
  checkLogQuery [] None = safe_result /\
  safe (checkLogQuery [] None) <> false.
Proof. repeat split; try reflexivity. discriminate. Qed.

(** C3, amended: when the filter is present and supplies neither an address
    nor topics, the verdict is unsafe; it carries the unrestricted-query
    reason and suggestion whenever the range check lets control through, in
    particular when that check is skipped because [toBlock] is missing or
    ['latest'], and it is the answer of the range check, unsafe as well,
    when that check answers. *)
Theorem checkLogQuery_unrestricted_unsafe
    (params : list JsValue) (config : option SafetyConfig) :
  let filter := index params 0 in
  ToBoolean filter = true ->
  ToBoolean (get filter "address") = false ->
  ToBoolean (get filter "topics") = false ->
  safe (checkLogQuery params config) = false /\
  (checkBlockRange (get filter "fromBlock")
     (or_else (get filter "toBlock") (JStr "latest")) (or_default config) = None ->
   checkLogQuery params config = unrestricted_result) /\
  (ToBoolean (get filter "toBlock") = false \/ get filter "toBlock" = JStr "latest" ->
   checkLogQuery params config = unrestricted_result) /\
  (forall result,
     checkBlockRange (get filter "fromBlock")
       (or_else (get filter "toBlock") (JStr "latest")) (or_default config) = Some result ->
     checkLogQuery params config = result /\ safe result = false).
Proof.
  intros filter Hf Ha Ht.
  rewrite (checkLogQuery_present params config Hf). fold filter.
  rewrite Ha, Ht. cbn [negb andb].
  split; [| split; [| split]].
  - destruct (checkBlockRange _ _ _) as [r |] eqn:E; [| reflexivity].
    apply checkBlockRange_returns_unsafe in E. apply E.
  - intros ->. reflexivity.
  - intros H. rewrite (checkBlockRange_skipped_latest _ _ _ H). reflexivity.
  - intros result E. rewrite E. split; [reflexivity |].
    apply checkBlockRange_returns_unsafe in E. apply E.
Qed.

Lemma checkLogQuery_unrestricted_unsafe_witness :
  checkLogQuery
    [object [("fromBlock", JNum (Number.of_Z 100)); ("toBlock", JStr "latest")]]
    None = unrestricted_result.
Proof.
  destruct (checkLogQuery_unrestricted_unsafe
              [object [("fromBlock", JNum (Number.of_Z 100)); ("toBlock", JStr "latest")]] None)
    as (_ & _ & H & _); [reflexivity | reflexivity | reflexivity |].
  apply H. right. reflexivity.
Defined.

(** Where the range check does not let control through, the verdict is
    the one of the range check, unsafe as well: here [fromBlock] is the JSON
    object [{ "toString": 1 }], the subtraction throws, and the [catch]
    handler answers. *)
Example checkLogQuery_unrestricted_unconvertible_bound :
  checkBlockRange (object [("toString", JNum (Number.of_Z 1))]) (JNum (Number.of_Z 5))
    DEFAULT_SAFETY_CONFIG = Some Bounds.unable_result /\
  checkLogQuery
    [object [("fromBlock", object [("toString", JNum (Number.of_Z 1))]);
             ("toBlock", JNum (Number.of_Z 5))]] None = Bounds.unable_result.
Proof. split; vm_compute; reflexivity. Qed.

(** The verdict on a filter with two Number bounds and an address or
    topics: unsafe, with the range and the ceiling in the reason, exactly
    when both bounds are truthy and [to - from] exceeds the ceiling. *)
Lemma checkLogQuery_number_bounds params config (from to : number) :
  let filter := index params 0 in
  ToBoolean filter = true ->
  get filter "fromBlock" = JNum from ->
  get filter "toBlock" = JNum to ->
  ToBoolean (get filter "address") || ToBoolean (get filter "topics") = true ->
  checkLogQuery params config =
    let range := Number.subtract to from in
    if Number.truthy from && Number.truthy to
       && Number.lessThan (maxBlockRange (or_default config)) range then
      unsafe_result
        ("Block range " ++ Number.toString range ++ " exceeds maximum "
           ++ Number.toString (maxBlockRange (or_default config)))
        "Reduce the block range or use pagination"
    else safe_result.
Proof.
  intros filter Hf Hfrom Hto Hr.
  rewrite (checkLogQuery_present params config Hf). fold filter.
  rewrite Hfrom, Hto. unfold or_else. cbn [ToBoolean].
  apply orb_true_iff in Hr.
  assert (Hn : negb (ToBoolean (get filter "address"))
               && negb (ToBoolean (get filter "topics")) = false)
    by (destruct Hr as [-> | ->]; cbn; rewrite ?andb_false_r; reflexivity).
  rewrite Hn.
  destruct (Number.truthy to) eqn:Tt.
  - rewrite checkBlockRange_numbers, Tt.
    destruct (Number.truthy from); cbn [andb]; [| reflexivity].
    cbv zeta. destruct (Number.lessThan _ _); reflexivity.
  - rewrite andb_false_r. cbn [andb].
    rewrite (checkBlockRange_skipped_latest (JNum from) (JStr "latest")); [reflexivity |].
    right; reflexivity.
Qed.

Example checkLogQuery_range_15 :
  checkLogQuery
    [object [("fromBlock", JNum (Number.of_Z 100)); ("toBlock", JNum (Number.of_Z 115));
             ("address", JStr "0xabc")]]
    (Some DEFAULT_SAFETY_CONFIG) =
  unsafe_result "Block range 15 exceeds maximum 10" "Reduce the block range or use pagination".
Proof. vm_compute. reflexivity. Qed.

Example checkLogQuery_range_5 :
  checkLogQuery
    [object [("fromBlock", JNum (Number.of_Z 100)); ("toBlock", JNum (Number.of_Z 105));
             ("address", JStr "0xabc")]]
    (Some DEFAULT_SAFETY_CONFIG) = safe_result.
Proof. vm_compute. reflexivity. Qed.

(** C7, where the code departs from it: a [fromBlock] of [0] is falsy, so
    the range check is skipped; the range from block 0 to block 100 is 100,
    over the ceiling of 10, and the verdict is safe. *)
Theorem checkLogQuery_from_block_zero_safe :
  Number.lessThan (maxBlockRange DEFAULT_SAFETY_CONFIG)
    (Number.subtract (Number.of_Z 100) (Number.of_Z 0)) = true /\
  checkLogQuery
    [object [("fromBlock", JNum (Number.of_Z 0)); ("toBlock", JNum (Number.of_Z 100));
             ("address", JStr "0xabc")]]
    (Some DEFAULT_SAFETY_CONFIG) = safe_result.
Proof. split; vm_compute; reflexivity. Qed.

(** C1, where the code departs from it: [parseInt] answers [NaN] for a
    bound it cannot read and does not throw, so the [catch] handler is not
    entered; the range is [NaN], the comparison with the ceiling is false,
    and with an address filter the verdict is safe. *)
Theorem checkLogQuery_unparseable_bound_safe :
  parseInt (JStr "not-a-number") 16 = Normal Number.NaN /\
  checkLogQuery
    [object [("fromBlock", JStr "not-a-number"); ("toBlock", JStr "0x10");
             ("address", JStr "0xabc")]]
    (Some DEFAULT_SAFETY_CONFIG) = safe_result.
Proof. split; vm_compute; reflexivity. Qed.

(** The same for every unreadable string bound: the verdict is the one the
    address and topics alone decide. *)
Lemma checkLogQuery_unparseable_bound params config (from to : string) :
  let filter := index params 0 in
  ToBoolean filter = true ->
  get filter "fromBlock" = JStr from ->
  get filter "toBlock" = JStr to ->
  Text.parseInt from 16 = Number.NaN \/ Text.parseInt to 16 = Number.NaN ->
  checkLogQuery params config =
    if negb (ToBoolean (get filter "address")) && negb (ToBoolean (get filter "topics"))
    then unrestricted_result
    else safe_result.
Proof.
  intros filter Hf Hfrom Hto Hnan.
  rewrite (checkLogQuery_present params config Hf). fold filter.
  rewrite Hfrom, Hto. unfold or_else. cbn [ToBoolean].
  destruct (String.eqb to "") eqn:E; cbn [negb].
  - rewrite (checkBlockRange_skipped_latest (JStr from) (JStr "latest")); [reflexivity |].
    right; reflexivity.
  - rewrite (checkBlockRange_unparseable _ _ _ Hnan). reflexivity.
Qed.

(** ** Log queries: string bounds are read in base 16 *)

Lemma radix_digit_hex c :
  Text.radix_digit 16 c = option_map Z.of_N (HexString.ascii_to_digit c).
Proof. destruct c as [[] [] [] [] [] [] [] []]; vm_compute; reflexivity. Qed.

Lemma hex_digit_plain c :
  Text.is_hex_digit c = true ->
  Ascii.eqb c "+" = false /\ Ascii.eqb c "-" = false /\
  Ascii.eqb c "x" = false /\ Ascii.eqb c "X" = false.
Proof.
  destruct c as [[] [] [] [] [] [] [] []]; vm_compute; intros H;
    try discriminate H; repeat split.
Qed.

(** No white space starts with the byte of a hexadecimal digit. *)
Lemma hex_digit_no_space c :
  Text.is_hex_digit c = true ->
  Text.white_space_1 c = false /\
  (forall b, Text.white_space_2 c b = false) /\
  (forall b b', Text.white_space_3 c b b' = false).
Proof.
  destruct c as [[] [] [] [] [] [] [] []]; vm_compute; intros H;
    try discriminate H; repeat split.
Qed.

Lemma trim_start_hex_digit c l :
  Text.is_hex_digit c = true -> Text.trim_start (c :: l) = c :: l.
Proof.
  intros H. destruct (hex_digit_no_space c H) as (H1 & H2 & H3).
  cbn [Text.trim_start]. rewrite H1.
  destruct l as [| b l]; [reflexivity |]. rewrite H2.
  destruct l as [| b' l]; [reflexivity |]. rewrite H3. reflexivity.
Qed.

(** Scanning a run of hexadecimal digits reads all of it, to the value
    [HexString] gives it. *)
Lemma scan_digits_hex l acc count :
  0 <= acc ->
  forallb Text.is_hex_digit l = true ->
  Text.scan_digits 16 l acc count =
    (Z.of_N (HexString.Raw.to_N (string_of_list_ascii l) (Z.to_N acc)),
     (count + length l)%nat, []).
Proof.
  revert acc count. induction l as [| c l IH]; intros acc count Hacc Hl.
  - cbn. rewrite Z2N.id by exact Hacc. rewrite Nat.add_0_r. reflexivity.
  - cbn [forallb] in Hl. apply andb_true_iff in Hl as [Hc Hl].
    cbn [Text.scan_digits string_of_list_ascii HexString.Raw.to_N].
    rewrite radix_digit_hex. unfold Text.is_hex_digit in Hc.
    destruct (HexString.ascii_to_digit c) as [v |]; [| discriminate Hc].
    cbn [option_map]. rewrite IH by (try exact Hl; lia).
    replace (Z.to_N (acc * 16 + Z.of_N v)) with (v + 16 * Z.to_N acc)%N by lia.
    cbn [length]. rewrite Nat.add_succ_r. reflexivity.
Qed.

Lemma hex_digits_cons s :
  Text.hex_digits s = true ->
  exists c l, list_ascii_of_string s = c :: l /\
              Text.is_hex_digit c = true /\ forallb Text.is_hex_digit l = true.
Proof.
  unfold Text.hex_digits. destruct s as [| c s]; [discriminate |].
  cbn. intros H. apply andb_true_iff in H as [Hc Hl]. eauto.
Qed.

Lemma parseInt_scanned sign mathInt :
  (if mathInt =? 0 then Number.negate sign Number.zero
   else Number.negate sign (Number.of_Z mathInt)) =
  if sign && (mathInt =? 0) then S754_zero true else Number.negate sign (Number.of_Z mathInt).
Proof. destruct (Z.eqb_spec mathInt 0) as [-> |]; destruct sign; reflexivity. Qed.

(** [parseInt(s, 16)] on hexadecimal digits without a prefix. *)
Lemma parseInt_hex_digits s :
  Text.hex_digits s = true ->
  Text.parseInt s 16 = Number.of_Z (Text.hex_value s).
Proof.
  intros H. destruct (hex_digits_cons s H) as (c & l & E & Hc & Hl).
  destruct (hex_digit_plain c Hc) as (Hplus & Hminus & Hx & HX).
  unfold Text.parseInt. rewrite E, (trim_start_hex_digit c l Hc). rewrite Hplus, Hminus.
  cbn [orb]. change (negb (16 =? 0) && ((16 <? 2) || (36 <? 16))) with false. cbv iota.
  change ((16 =? 0) || (16 =? 16)) with true. change (16 =? 0) with false. cbv iota zeta.
  assert (Escan : Text.scan_digits 16 (c :: l) 0 0 =
                  (Text.hex_value s, S (length l), [])).
  { rewrite scan_digits_hex by (try lia; cbn [forallb]; rewrite Hc, Hl; reflexivity).
    replace (string_of_list_ascii (c :: l)) with s
      by (rewrite <- E; symmetry; apply string_of_list_ascii_of_string).
    reflexivity. }
  assert (Eprefix :
    match l with
    | c1 :: r =>
        if true && Ascii.eqb c "0" && (Ascii.eqb c1 "x" || Ascii.eqb c1 "X")
        then (16, r) else (16, c :: l)
    | [] => (16, c :: l)
    end = (16, c :: l)).
  { destruct l as [| c1 r]; [reflexivity |].
    cbn [forallb] in Hl. apply andb_true_iff in Hl as [Hc1 _].
    destruct (hex_digit_plain c1 Hc1) as (_ & _ & Hx1 & HX1).
    rewrite Hx1, HX1, andb_false_r. reflexivity. }
  rewrite Eprefix, Escan. rewrite parseInt_scanned. reflexivity.
Qed.

(** ... and behind a [0x] or [0X] prefix. *)
Lemma parseInt_hex_prefixed x s :
  x = "x"%char \/ x = "X"%char ->
  Text.hex_digits s = true ->
  Text.parseInt (String "0" (String x s)) 16 = Number.of_Z (Text.hex_value s).
Proof.
  intros Hx H. destruct (hex_digits_cons s H) as (c & l & E & Hc & Hl).
  assert (Escan : Text.scan_digits 16 (list_ascii_of_string s) 0 0 =
                  (Text.hex_value s, S (length l), [])).
  { rewrite E, scan_digits_hex by (try lia; cbn [forallb]; rewrite Hc, Hl; reflexivity).
    replace (string_of_list_ascii (c :: l)) with s
      by (rewrite <- E; symmetry; apply string_of_list_ascii_of_string).
    reflexivity. }
  unfold Text.parseInt. cbn [list_ascii_of_string].
  rewrite (trim_start_hex_digit "0" _ eq_refl).
  change (Ascii.eqb "0" "-") with false. change (Ascii.eqb "0" "+") with false.
  cbn [orb]. change (negb (16 =? 0) && ((16 <? 2) || (36 <? 16))) with false. cbv iota.
  change ((16 =? 0) || (16 =? 16)) with true. change (Ascii.eqb "0" "0") with true.
  assert (Ex : Ascii.eqb x "x" || Ascii.eqb x "X" = true)
    by (destruct Hx as [-> | ->]; reflexivity).
  rewrite Ex. cbn [andb]. cbv iota zeta. rewrite Escan, parseInt_scanned. reflexivity.
Qed.

Lemma parseInt_hex_bound text digits :
  Text.hex_digits digits = true ->
  Text.hex_bound text digits ->
  Text.parseInt text 16 = Number.of_Z (Text.hex_value digits) /\
  String.eqb text "" = false /\ String.eqb text "latest" = false.
Proof.
  intros Hd [-> | [-> | ->]].
  - split; [now apply parseInt_hex_digits |].
    split.
    + destruct digits; [discriminate Hd | reflexivity].
    + destruct (String.eqb_spec digits "latest") as [-> |]; [discriminate Hd | reflexivity].
  - split; [apply parseInt_hex_prefixed; auto |]. split; reflexivity.
  - split; [apply parseInt_hex_prefixed; auto |]. split; reflexivity.
Qed.

(** C4, where it fails: the decimal strings ['5'] and ['15'] are read in
    base 16, as 5 and 21; the range is 16, over the ceiling of 10, while the
    numbers 5 and 15 give the range 10 and pass. *)
Lemma checkLogQuery_decimal_strings_read_as_hex :
  parseInt (JStr "15") 16 = Normal (Number.of_Z 21) /\
  checkLogQuery
    [object [("fromBlock", JStr "5"); ("toBlock", JStr "15"); ("address", JStr "0xabc")]]
    (Some DEFAULT_SAFETY_CONFIG) =
  unsafe_result "Block range 16 exceeds maximum 10" "Reduce the block range or use pagination" /\
  checkLogQuery
    [object [("fromBlock", JNum (Number.of_Z 5)); ("toBlock", JNum (Number.of_Z 15));
             ("address", JStr "0xabc")]]
    (Some DEFAULT_SAFETY_CONFIG) = safe_result.
Proof. repeat split; vm_compute; reflexivity. Qed.

(** C4, amended: string bounds are read by [parseInt] in base 16.  A
    string of hexadecimal digits, bare or behind [0x], is parsed to the
    integer the digits denote in base 16, and the range is [to] minus
    [from] (so ['5'] and ['15'] give 5 and 21, range 16). *)
Theorem checkLogQuery_string_bounds_base16
    (from to from_digits to_digits : string) (config : SafetyConfig) :
  Text.hex_digits from_digits = true -> Text.hex_bound from from_digits ->
  Text.hex_digits to_digits = true -> Text.hex_bound to to_digits ->
  let range :=
    Number.subtract (Number.of_Z (Text.hex_value to_digits))
      (Number.of_Z (Text.hex_value from_digits)) in
  parseInt (JStr from) 16 = Normal (Number.of_Z (Text.hex_value from_digits)) /\
  parseInt (JStr to) 16 = Normal (Number.of_Z (Text.hex_value to_digits)) /\
  checkBlockRange (JStr from) (JStr to) config =
    if Number.lessThan (maxBlockRange config) range then
      Some (unsafe_result
              ("Block range " ++ Number.toString range ++ " exceeds maximum "
                 ++ Number.toString (maxBlockRange config))
              "Reduce the block range or use pagination")
    else None.
Proof.
  intros Hfd Hfb Htd Htb range.
  destruct (parseInt_hex_bound from from_digits Hfd Hfb) as (Pf & Ef & _).
  destruct (parseInt_hex_bound to to_digits Htd Htb) as (Pt & Et & Lt).
  split; [unfold parseInt; cbn [ToString bind]; rewrite Pf; reflexivity |].
  split; [unfold parseInt; cbn [ToString bind]; rewrite Pt; reflexivity |].
  rewrite checkBlockRange_strings, Ef, Et, Lt. cbn [negb andb]. cbv zeta.
  rewrite Pf, Pt. reflexivity.
Qed.

Lemma checkLogQuery_string_bounds_base16_witness :
  Text.hex_digits "5" = true /\ Text.hex_digits "15" = true /\
  checkBlockRange (JStr "5") (JStr "0x15") DEFAULT_SAFETY_CONFIG =
    Some (unsafe_result "Block range 16 exceeds maximum 10"
            "Reduce the block range or use pagination").
Proof.
  split; [reflexivity |]. split; [reflexivity |].
  destruct (checkLogQuery_string_bounds_base16 "5" "0x15" "5" "15" DEFAULT_SAFETY_CONFIG)
    as (_ & _ & E);
    [reflexivity | left; reflexivity | reflexivity | right; left; reflexivity |].
  rewrite E. vm_compute. reflexivity.
Defined.

(** ** The natural-language validator *)

Lemma return_on_first_match_existsb patterns query r :
  return_on_first_match patterns query r =
    if existsb (fun pattern => RegExp.test pattern query) patterns then Some r else None.
Proof.
  induction patterns as [| p ps IH]; [reflexivity |].
  cbn [return_on_first_match existsb]. destruct (RegExp.test p query); [reflexivity | exact IH].
Qed.

Lemma some_test_found patterns query :
  existsb (fun pattern => RegExp.test pattern query) patterns = true <->
  exists pattern, In pattern patterns /\ RegExp.found_in pattern query.
Proof.
  rewrite existsb_exists. split.
  - intros (p & Hin & Ht). exists p. split; [exact Hin |]. now apply RegExpFacts.test_found_in.
  - intros (p & Hin & Hf). exists p. split; [exact Hin |]. now apply RegExpFacts.test_found_in.
Qed.

Lemma no_test_found patterns query :
  existsb (fun pattern => RegExp.test pattern query) patterns = false <->
  forall pattern, In pattern patterns -> ~ RegExp.found_in pattern query.
Proof.
  split.
  - intros H p Hin Hf.
    assert (existsb (fun pattern => RegExp.test pattern query) patterns = true)
      by (apply some_test_found; eauto).
    congruence.
  - intros H. destruct (existsb _ patterns) eqn:E; [| reflexivity].
    apply some_test_found in E as (p & Hin & Hf). exfalso. exact (H p Hin Hf).
Qed.

(** The two loops of the validator, pattern by pattern. *)
Lemma history_pattern_found query :
  isTransactionHistoryQuery query = true <->
  found "get.*transaction.*for.*address" query \/ found "transaction.*history" query \/
  found "recent.*transactions" query \/ found "last.*transaction" query \/
  found "latest.*transaction.*on.*address" query \/ found "address.*transactions" query.
Proof.
  unfold isTransactionHistoryQuery, TRANSACTION_HISTORY_PATTERNS, found. cbn [existsb].
  rewrite orb_false_r, !orb_true_iff, !RegExpFacts.test_found_in. tauto.
Qed.

Lemma unbounded_pattern_found query :
  existsb (fun pattern => RegExp.test pattern query) dangerousPatterns = true <->
  found "get all transactions" query \/ found "list all" query \/
  found "fetch all" query \/ found "every transaction" query \/ found "all.*logs" query.
Proof.
  unfold dangerousPatterns, found. cbn [existsb].
  rewrite orb_false_r, !orb_true_iff, !RegExpFacts.test_found_in. tauto.
Qed.

(** C8: the patterns are tried in a fixed order.  A query in which one of
    the six transaction-history patterns matches is unsafe with the
    history-scan reason, whether or not an unbounded-scope pattern matches
    too; failing that, a query in which one of the five unbounded-scope
    patterns matches is unsafe with the unbounded-data reason; a query in
    which none of the eleven matches is safe. *)
Theorem validateNaturalLanguageQuery_order (query : string) (config : option SafetyConfig) :
  let history :=
    found "get.*transaction.*for.*address" query \/ found "transaction.*history" query \/
    found "recent.*transactions" query \/ found "last.*transaction" query \/
    found "latest.*transaction.*on.*address" query \/ found "address.*transactions" query in
  let unbounded :=
    found "get all transactions" query \/ found "list all" query \/
    found "fetch all" query \/ found "every transaction" query \/ found "all.*logs" query in
  let verdict := validateNaturalLanguageQuery query config in
  (history ->
   verdict =
     unsafe_result
       "Transaction history queries require fetching multiple blocks with full transaction data, which causes context overflow"
       ("Instead:" ++ newline ++
        "  • Query a specific transaction by hash if you know it" ++ newline ++
        "  • Use a block explorer API (Etherscan, etc.) for transaction history" ++ newline ++
        "  • Ask for current balance or state instead of history")) /\
  (~ history -> unbounded ->
   verdict = unsafe_result
               "Query requests potentially unbounded data"
               "Add specific limits, filters, or time ranges to your query") /\
  (~ history -> ~ unbounded -> verdict = safe_result).
Proof.
  intros history unbounded verdict. subst verdict.
  unfold validateNaturalLanguageQuery.
  rewrite return_on_first_match_existsb.
  pose proof (history_pattern_found query) as Hh. fold history in Hh.
  pose proof (unbounded_pattern_found query) as Hu. fold unbounded in Hu.
  destruct (isTransactionHistoryQuery query).
  - split; [intros _; reflexivity |].
    split; intros Hn; exfalso; apply Hn, Hh; reflexivity.
  - split; [| split].
    + intros H. apply Hh in H. discriminate H.
    + intros _ H. apply Hu in H. rewrite H. reflexivity.
    + intros _ Hn.
      destruct (existsb _ dangerousPatterns); [| reflexivity].
      exfalso. apply Hn, Hu. reflexivity.
Qed.

(** One query for each of the three verdicts: [last.*transaction] matches
    in the first; no history pattern matches in the second, where
    [list all] does; no pattern matches in the third. *)
Lemma validateNaturalLanguageQuery_order_witness :
  reason (validateNaturalLanguageQuery "What was the last transaction on vitalik.eth?" None) =
    Some "Transaction history queries require fetching multiple blocks with full transaction data, which causes context overflow"%string /\
  validateNaturalLanguageQuery "list all logs for this contract" None =
    unsafe_result "Query requests potentially unbounded data"
      "Add specific limits, filters, or time ranges to your query" /\
  validateNaturalLanguageQuery "get the latest height for ethereum" None = safe_result.
Proof.
  split; [| split].
  - rewrite (proj1 (validateNaturalLanguageQuery_order
                      "What was the last transaction on vitalik.eth?" None));
      [reflexivity |].
    right; right; right; left. apply RegExpFacts.test_found_in. vm_compute. reflexivity.
  - apply (validateNaturalLanguageQuery_order "list all logs for this contract" None).
    + intros H. apply history_pattern_found in H. vm_compute in H. discriminate H.
    + right; left. apply RegExpFacts.test_found_in. vm_compute. reflexivity.
  - apply (validateNaturalLanguageQuery_order "get the latest height for ethereum" None).
    + intros H. apply history_pattern_found in H. vm_compute in H. discriminate H.
    + intros H. apply unbounded_pattern_found in H. vm_compute in H. discriminate H.
Defined.

Example validateNaturalLanguageQuery_last_transaction :
  reason (validateNaturalLanguageQuery "What was the last transaction on vitalik.eth?" None) =
  Some "Transaction history queries require fetching multiple blocks with full transaction data, which causes context overflow"%string.
Proof. vm_compute. reflexivity. Qed.

Example validateNaturalLanguageQuery_list_all_logs :
  validateNaturalLanguageQuery "list all logs for this contract" None =
  unsafe_result "Query requests potentially unbounded data"
    "Add specific limits, filters, or time ranges to your query".
Proof. vm_compute. reflexivity. Qed.

(** Both lists match here; the history verdict is the one returned. *)
Example validateNaturalLanguageQuery_both_lists :
  existsb (fun p => RegExp.test p "fetch all of the transaction history") dangerousPatterns = true /\
  reason (validateNaturalLanguageQuery "fetch all of the transaction history" None) =
  Some "Transaction history queries require fetching multiple blocks with full transaction data, which causes context overflow"%string.
Proof. split; vm_compute; reflexivity. Qed.

(** ** The invariant of results *)

Lemma checkBlockQuery_invariant method params config :
  result_invariant (checkBlockQuery method params config) = true.
Proof.
  unfold checkBlockQuery.
  destruct (String.eqb method "eth_getBlockByNumber" || String.eqb method "eth_getBlockByHash");
    [| reflexivity].
  destruct (strict_eq_true (index params 1));
    destruct (allowBlocksWithTransactions (or_default config)); reflexivity.
Qed.

Lemma checkLogQuery_invariant params config :
  result_invariant (checkLogQuery params config) = true.
Proof.
  unfold checkLogQuery.
  destruct (negb (ToBoolean (index params 0))); [reflexivity |].
  destruct (checkBlockRange _ _ _) as [r |] eqn:E.
  - apply checkBlockRange_returns_unsafe in E. apply E.
  - destruct (negb _ && negb _); reflexivity.
Qed.

Lemma validateRPCCall_invariant blockchain method params config :
  result_invariant (validateRPCCall blockchain method params config) = true.
Proof.
  unfold validateRPCCall.
  destruct (isDangerousMethod method); [| reflexivity].
  destruct (String.prefix "eth_getBlock" method); [apply checkBlockQuery_invariant |].
  destruct (String.eqb method "eth_getLogs"); [apply checkLogQuery_invariant |].
  reflexivity.
Qed.

Lemma validateNaturalLanguageQuery_invariant query config :
  result_invariant (validateNaturalLanguageQuery query config) = true.
Proof.
  unfold validateNaturalLanguageQuery. rewrite return_on_first_match_existsb.
  destruct (isTransactionHistoryQuery query); [reflexivity |].
  destruct (existsb _ dangerousPatterns); reflexivity.
Qed.

(** C9: every result of the four entry points, for every input and
    configuration, has a non-empty reason and a non-empty suggestion when
    [safe] is [false], and neither when [safe] is [true]. *)
Theorem result_invariant_holds
    (blockchain method query : string) (params : list JsValue) (config : option SafetyConfig) :
  result_invariant (validateRPCCall blockchain method params config) = true /\
  result_invariant (checkBlockQuery method params config) = true /\
  result_invariant (checkLogQuery params config) = true /\
  result_invariant (validateNaturalLanguageQuery query config) = true.
Proof.
  repeat split.
  - apply validateRPCCall_invariant.
  - apply checkBlockQuery_invariant.
  - apply checkLogQuery_invariant.
  - apply validateNaturalLanguageQuery_invariant.
Qed.

(* ===================================================================== *)
(** * The response-size estimator                                         *)
(* ===================================================================== *)

Import Estimator.

(** Reading the table at an arbitrary key. *)
Lemma estimates_lookup params method :
  let block :=
    JNum (if strict_eq_true (index params 1) then Number.of_Z 500 else Number.of_Z 5) in
  get (estimates params) method =
    if String.eqb method "eth_getBlockByNumber" then block
    else if String.eqb method "eth_getBlockByHash" then block
    else if String.eqb method "eth_getLogs" then JNum (Number.of_Z 200)
    else if String.eqb method "eth_getTransactionReceipt" then JNum (Number.of_Z 10)
    else if String.eqb method "debug_traceTransaction" then JNum (Number.of_Z 1000)
    else if String.eqb method "trace_block" then JNum (Number.of_Z 2000)
    else JUndefined.
Proof.
  intros block. unfold estimates, object, get. cbn [foldl fst snd].
  repeat (rewrite lookup_insert;
          let E := fresh "E" in
          case_decide as E;
          [subst method; reflexivity |
           apply String.eqb_neq in E; rewrite String.eqb_sym in E]).
  rewrite lookup_empty.
  repeat match goal with
         | H : String.eqb method _ = false |- _ => rewrite H; clear H
         end.
  reflexivity.
Qed.


(** The estimate for an arbitrary method name. *)
Lemma estimateResponseSize_cases method params :
  let block :=
    Value (JNum (if strict_eq_true (index params 1) then Number.of_Z 500 else Number.of_Z 5)) in
  estimateResponseSize method params =
    if String.eqb method "eth_getBlockByNumber" then block
    else if String.eqb method "eth_getBlockByHash" then block
    else if String.eqb method "eth_getLogs" then Value (JNum (Number.of_Z 200))
    else if String.eqb method "eth_getTransactionReceipt" then Value (JNum (Number.of_Z 10))
    else if String.eqb method "debug_traceTransaction" then Value (JNum (Number.of_Z 1000))
    else if String.eqb method "trace_block" then Value (JNum (Number.of_Z 2000))
    else if inherited method then Builtin method
    else Value (JNum (Number.of_Z 5)).
Proof.
  intros block. unfold estimateResponseSize, member, estimates, object. cbn [foldl fst snd].
  repeat (rewrite lookup_insert;
          let E := fresh "E" in
          case_decide as E;
          [subst method; subst block; cbn [String.eqb Ascii.eqb Bool.eqb];
           destruct (strict_eq_true (index params 1)); reflexivity |
           apply String.eqb_neq in E; rewrite String.eqb_sym in E]).
  rewrite lookup_empty.
  repeat match goal with
         | H : String.eqb method _ = false |- _ => rewrite H; clear H
         end.
  destruct (inherited method); reflexivity.
Qed.

(** X1: for a method name that is not a member of [Object.prototype], the
    estimate is a Number, one of 5, 10, 200, 500, 1000 and 2000 KB, and it is
    the 5 KB default whenever the table has no entry for the method. *)
Theorem estimateResponseSize_sizes (method : string) (params : list JsValue) :
  inherited method = false ->
  exists kb,
    In kb estimate_sizes /\
    estimateResponseSize method params = Value (JNum (Number.of_Z kb)) /\
    (get (estimates params) method = JUndefined -> kb = 5).
Proof.
  intros Hi. rewrite estimateResponseSize_cases, estimates_lookup, Hi. cbv zeta.
  unfold estimate_sizes.
  repeat (destruct (String.eqb method _);
          [first [ destruct (strict_eq_true (index params 1));
                   eexists; (split; [| split; [reflexivity | discriminate]]); cbn; tauto ] |]).
  exists 5. split; [cbn; tauto |]. split; reflexivity.
Qed.

Lemma estimateResponseSize_sizes_witness :
  estimateResponseSize "eth_chainId" [JStr "latest"; JBool true] =
  Value (JNum (Number.of_Z 5)).
Proof.
  destruct (estimateResponseSize_sizes "eth_chainId" [JStr "latest"; JBool true])
    as (kb & _ & E & D); [vm_compute; reflexivity |].
  rewrite E, D; [reflexivity | vm_compute; reflexivity].
Defined.

(** X2: on the two block methods the estimate follows the verdict of
    [checkBlockQuery], under every configuration: 500 KB exactly when the
    query is unsafe, 5 KB when it is safe. *)
Theorem estimateResponseSize_block_methods
    (method : string) (params : list JsValue) (config : option SafetyConfig) :
  method = "eth_getBlockByNumber"%string \/ method = "eth_getBlockByHash"%string ->
  estimateResponseSize method params =
    Value (JNum (if safe (checkBlockQuery method params config)
                 then Number.of_Z 5 else Number.of_Z 500)).
Proof.
  intros Hm. rewrite estimateResponseSize_cases. cbv zeta. unfold checkBlockQuery.
  destruct Hm as [-> | ->]; cbn [String.eqb Ascii.eqb Bool.eqb orb];
    destruct (strict_eq_true (index params 1));
    destruct (allowBlocksWithTransactions (or_default config)); reflexivity.
Qed.

Lemma estimateResponseSize_block_methods_witness :
  estimateResponseSize "eth_getBlockByHash" [JStr "0xabc"; JBool true] =
  Value (JNum (Number.of_Z 500)).
Proof.
  rewrite (estimateResponseSize_block_methods "eth_getBlockByHash"
             [JStr "0xabc"; JBool true] None); [reflexivity | right; reflexivity].
Defined.

(** X3: a call whose estimate is a Number that reaches the default
    ceiling [maxResponseSizeEstimate] of 500 KB is blocked by
    [validateRPCCall], under every configuration.  A call that
    [validateRPCCall] lets through is estimated below the ceiling, unless
    its method bears the name of a member of [Object.prototype] (such as
    "constructor"): the estimate is then that member, not a Number. *)
Theorem estimate_at_ceiling_blocked
    (blockchain method : string) (params : list JsValue) (config : option SafetyConfig) :
  let ceiling := maxResponseSizeEstimate DEFAULT_SAFETY_CONFIG in
  let verdict := validateRPCCall blockchain method params config in
  (forall kb,
     estimateResponseSize method params = Value (JNum kb) ->
     Number.lessThan kb ceiling = false ->
     safe verdict = false) /\
  (safe verdict = true ->
   if inherited method then estimateResponseSize method params = Builtin method
   else exists kb,
          estimateResponseSize method params = Value (JNum kb) /\
          Number.lessThan kb ceiling = true).
Proof.
  intros ceiling verdict. subst ceiling verdict.
  rewrite estimateResponseSize_cases. cbv zeta.
  destruct (String.eqb_spec method "eth_getBlockByNumber") as [-> | _].
  { unfold validateRPCCall, checkBlockQuery.
    change (isDangerousMethod "eth_getBlockByNumber") with true.
    cbn [String.prefix String.eqb Ascii.eqb Bool.eqb orb].
    change (inherited "eth_getBlockByNumber") with false. cbv iota.
    destruct (strict_eq_true (index params 1)).
    - split; [intros kb _ _ | intros H];
        destruct (allowBlocksWithTransactions _); (reflexivity || discriminate H).
    - split; [intros kb [= <-] L; vm_compute in L; discriminate L |].
      intros _. eexists. split; reflexivity. }
  destruct (String.eqb_spec method "eth_getBlockByHash") as [-> | _].
  { unfold validateRPCCall, checkBlockQuery.
    change (isDangerousMethod "eth_getBlockByHash") with true.
    cbn [String.prefix String.eqb Ascii.eqb Bool.eqb orb].
    change (inherited "eth_getBlockByHash") with false. cbv iota.
    destruct (strict_eq_true (index params 1)).
    - split; [intros kb _ _ | intros H];
        destruct (allowBlocksWithTransactions _); (reflexivity || discriminate H).
    - split; [intros kb [= <-] L; vm_compute in L; discriminate L |].
      intros _. eexists. split; reflexivity. }
  destruct (String.eqb_spec method "eth_getLogs") as [-> | _].
  { change (inherited "eth_getLogs") with false. cbv iota.
    split; [intros kb [= <-] L; vm_compute in L; discriminate L |].
    intros _. eexists. split; reflexivity. }
  destruct (String.eqb_spec method "eth_getTransactionReceipt") as [-> | _].
  { split; [intros kb [= <-] L; vm_compute in L; discriminate L |].
    intros H. discriminate H. }
  destruct (String.eqb_spec method "debug_traceTransaction") as [-> | _].
  { split; [intros kb _ _; reflexivity | intros H; discriminate H]. }
  destruct (String.eqb_spec method "trace_block") as [-> | _].
  { split; [intros kb _ _; reflexivity | intros H; discriminate H]. }
  destruct (inherited method).
  - split; [intros kb H; discriminate H | reflexivity].
  - split; [intros kb [= <-] L; vm_compute in L; discriminate L |].
    intros _. eexists. split; reflexivity.
Qed.

Lemma estimate_at_ceiling_blocked_witness :
  safe (validateRPCCall "ethereum" "trace_block" [JStr "0x10"] None) = false /\
  estimateResponseSize "constructor" [] = Builtin "constructor" /\
  exists kb, estimateResponseSize "eth_getLogs" [object [("address", JStr "0xabc")]] =
               Value (JNum kb) /\
             Number.lessThan kb (maxResponseSizeEstimate DEFAULT_SAFETY_CONFIG) = true.
Proof.
  split; [| split].
  - apply (proj1 (estimate_at_ceiling_blocked "ethereum" "trace_block" [JStr "0x10"] None)
             (Number.of_Z 2000)); vm_compute; reflexivity.
  - apply (proj2 (estimate_at_ceiling_blocked "ethereum" "constructor" [] None)).
    vm_compute. reflexivity.
  - apply (proj2 (estimate_at_ceiling_blocked "ethereum" "eth_getLogs"
                    [object [("address", JStr "0xabc")]] None)).
    vm_compute. reflexivity.
Defined.



(* ===================================================================== *)
(** * The natural-language validator: case, context, keywords and lines   *)
(* ===================================================================== *)

Import Query.

(** The verdict is unsafe exactly when one of the eleven patterns is found
    in the query. *)
Lemma validateNaturalLanguageQuery_unsafe_iff query config :
  safe (validateNaturalLanguageQuery query config) = false <->
  exists pattern, In pattern all_patterns /\ RegExp.found_in pattern query.
Proof.
  unfold validateNaturalLanguageQuery, isTransactionHistoryQuery, all_patterns.
  rewrite return_on_first_match_existsb.
  setoid_rewrite in_app_iff.
  destruct (existsb _ TRANSACTION_HISTORY_PATTERNS) eqn:Eh.
  - apply some_test_found in Eh as (p & Hin & Hf). split; [| reflexivity].
    intros _. exists p. auto.
  - destruct (existsb _ dangerousPatterns) eqn:Eu.
    + apply some_test_found in Eu as (p & Hin & Hf). split; [| reflexivity].
      intros _. exists p. auto.
    + split; [discriminate |].
      intros (p & [Hin | Hin] & Hf); exfalso.
      * exact (proj1 (no_test_found _ _) Eh p Hin Hf).
      * exact (proj1 (no_test_found _ _) Eu p Hin Hf).
Qed.

Lemma all_patterns_ignoreCase pattern :
  In pattern all_patterns -> RegExp.ignoreCase pattern = true.
Proof.
  unfold all_patterns, TRANSACTION_HISTORY_PATTERNS, dangerousPatterns. cbn [app In].
  intros H. repeat (destruct H as [<- | H]; [reflexivity |]). contradiction.
Qed.

(** ** Letter case *)

Lemma canonicalize_upper a :
  RegExp.canonicalize true (ascii_upper a) = RegExp.canonicalize true a.
Proof. destruct a as [[] [] [] [] [] [] [] []]; vm_compute; reflexivity. Qed.

Lemma step_upper p a : RegExp.step p (ascii_upper a) = RegExp.step p a.
Proof. destruct p; destruct a as [[] [] [] [] [] [] [] []]; vm_compute; reflexivity. Qed.

Lemma deriv_same_letter a a' r :
  ascii_upper a = ascii_upper a' -> RegExp.deriv true a r = RegExp.deriv true a' r.
Proof.
  intros E.
  assert (Ec : RegExp.canonicalize true a = RegExp.canonicalize true a')
    by (rewrite <- (canonicalize_upper a), <- (canonicalize_upper a'), E; reflexivity).
  induction r as [| | c | p | r1 IH1 r2 IH2 | r1 IH1 r2 IH2 | r IH]; cbn [RegExp.deriv];
    try reflexivity.
  - unfold RegExp.char_matches. rewrite Ec. reflexivity.
  - rewrite <- (step_upper p a), <- (step_upper p a'), E. reflexivity.
  - rewrite IH1, IH2. reflexivity.
  - rewrite IH1, IH2. reflexivity.
  - rewrite IH. reflexivity.
Qed.

Lemma match_prefix_same_letters l l' r :
  List.map ascii_upper l = List.map ascii_upper l' ->
  RegExp.match_prefix true r l = RegExp.match_prefix true r l'.
Proof.
  revert l' r. induction l as [| a l IH]; intros [| a' l'] r E; try discriminate E.
  - reflexivity.
  - cbn [List.map] in E. injection E as Ea El.
    cbn [RegExp.match_prefix]. rewrite (deriv_same_letter a a' r Ea), (IH l' _ El).
    reflexivity.
Qed.

Lemma search_same_letters l l' r :
  List.map ascii_upper l = List.map ascii_upper l' ->
  RegExp.search true r l = RegExp.search true r l'.
Proof.
  revert l'. induction l as [| a l IH]; intros [| a' l'] E; try discriminate E.
  - reflexivity.
  - cbn [RegExp.search]. rewrite (match_prefix_same_letters _ _ r E).
    cbn [List.map] in E. injection E as _ El. rewrite (IH l' El). reflexivity.
Qed.

Lemma existsb_test_same_letters patterns q q' :
  (forall pattern, In pattern patterns -> RegExp.ignoreCase pattern = true) ->
  same_letters q q' ->
  existsb (fun pattern => RegExp.test pattern q) patterns =
  existsb (fun pattern => RegExp.test pattern q') patterns.
Proof.
  intros Hi E. induction patterns as [| p ps IH]; [reflexivity |].
  cbn [existsb]. rewrite IH by (intros; apply Hi; now right).
  unfold RegExp.test at 1 3. rewrite (Hi p) by now left.
  rewrite (search_same_letters _ _ _ E). reflexivity.
Qed.

(** X5: the verdict does not depend on the case of the ASCII letters of
    the query: two queries that differ only there get the same result. *)
Theorem validateNaturalLanguageQuery_case_insensitive
    (q q' : string) (config : option SafetyConfig) :
  same_letters q q' ->
  validateNaturalLanguageQuery q config = validateNaturalLanguageQuery q' config.
Proof.
  intros E. unfold validateNaturalLanguageQuery, isTransactionHistoryQuery.
  rewrite !return_on_first_match_existsb.
  rewrite (existsb_test_same_letters TRANSACTION_HISTORY_PATTERNS q q'),
          (existsb_test_same_letters dangerousPatterns q q'); try exact E; try reflexivity.
  - intros p Hp. apply all_patterns_ignoreCase. apply in_app_iff. now right.
  - intros p Hp. apply all_patterns_ignoreCase. apply in_app_iff. now left.
Qed.

Lemma validateNaturalLanguageQuery_case_insensitive_witness :
  validateNaturalLanguageQuery "LIST ALL Logs" None =
  validateNaturalLanguageQuery "list all logs" None.
Proof. apply validateNaturalLanguageQuery_case_insensitive. reflexivity. Defined.

(** ** Surrounding text *)

Lemma list_ascii_of_string_app s1 s2 :
  list_ascii_of_string (s1 ++ s2) = list_ascii_of_string s1 ++ list_ascii_of_string s2.
Proof.
  induction s1 as [| c s1 IH]; [reflexivity |].
  change (list_ascii_of_string (String c s1 ++ s2))
    with (c :: list_ascii_of_string (s1 ++ s2)).
  rewrite IH. reflexivity.
Qed.

Lemma found_in_context pattern before q after :
  RegExp.found_in pattern q -> RegExp.found_in pattern (before ++ q ++ after).
Proof.
  intros (b & w & a & E & H). unfold RegExp.found_in.
  exists (list_ascii_of_string before ++ b), w, (a ++ list_ascii_of_string after).
  split; [| exact H].
  rewrite !list_ascii_of_string_app, E, <- !app_assoc. reflexivity.
Qed.

(** X6: text put before and after an unsafe query does not make it safe:
    once a pattern is found, it is found in every text that contains the
    query. *)
Theorem validateNaturalLanguageQuery_unsafe_in_context
    (before q after : string) (config : option SafetyConfig) :
  safe (validateNaturalLanguageQuery q config) = false ->
  safe (validateNaturalLanguageQuery (before ++ q ++ after) config) = false.
Proof.
  rewrite !validateNaturalLanguageQuery_unsafe_iff.
  intros (p & Hin & Hf). exists p. split; [exact Hin |]. now apply found_in_context.
Qed.

Lemma validateNaturalLanguageQuery_unsafe_in_context_witness :
  safe (validateNaturalLanguageQuery
          ("please " ++ "show the transaction history" ++ " of this wallet") None) = false.
Proof.
  apply validateNaturalLanguageQuery_unsafe_in_context. vm_compute. reflexivity.
Defined.

(** ** Keywords *)

Lemma matches_seq i r1 r2 w :
  RegExp.matches i (seq r1 r2) w <->
  exists w1 w2, w = w1 ++ w2 /\ RegExp.matches i r1 w1 /\ RegExp.matches i r2 w2.
Proof.
  revert w. induction r1 as [| | c | p | a IHa b IHb | a IHa b IHb | a IHa]; intros w;
    cbn [seq];
    try (split; [apply RegExpFacts.matches_cat_inv |
                 intros (w1 & w2 & -> & H1 & H2); now constructor]).
  - split.
    + intros H. exists [], w. repeat split; [constructor | exact H].
    + intros (w1 & w2 & -> & H1 & H2).
      apply RegExpFacts.matches_eps_inv in H1 as ->. exact H2.
  - split.
    + intros H. apply RegExpFacts.matches_cat_inv in H as (wa & wr & -> & Ha & Hr).
      apply IHb in Hr as (wb & w2 & -> & Hb & H2).
      exists (wa ++ wb), w2. rewrite app_assoc. repeat split; [now constructor | exact H2].
    + intros (w1 & w2 & -> & H1 & H2).
      apply RegExpFacts.matches_cat_inv in H1 as (wa & wb & -> & Ha & Hb).
      rewrite <- app_assoc. constructor; [exact Ha |]. apply IHb. eauto.
Qed.

(** A pattern of which [keyword] is a segment is only found where the
    keyword is found. *)
Lemma found_in_segment (left keyword right : RegExp.regex) pattern q :
  RegExp.source pattern = seq left (seq keyword right) ->
  RegExp.found_in pattern q ->
  RegExp.found_in {| RegExp.source := keyword;
                     RegExp.ignoreCase := RegExp.ignoreCase pattern |} q.
Proof.
  intros Es (b & w & a & E & H). rewrite Es in H.
  apply matches_seq in H as (wl & wkr & -> & Hl & Hkr).
  apply matches_seq in Hkr as (wk & wr & -> & Hk & Hr).
  exists (b ++ wl), wk, (wr ++ a). split; [| exact Hk].
  rewrite E, <- !app_assoc. reflexivity.
Qed.

Lemma found_in_keyword (left keyword right : string) pattern q :
  pattern = RegExp.literal (left ++ keyword ++ right) "i" ->
  RegExp.parse (list_ascii_of_string (left ++ keyword ++ right)) =
    seq (RegExp.parse (list_ascii_of_string left))
      (seq (RegExp.parse (list_ascii_of_string keyword))
         (RegExp.parse (list_ascii_of_string right))) ->
  RegExp.found_in pattern q ->
  RegExp.found_in (RegExp.literal keyword "i") q.
Proof.
  intros -> Es H. eapply (found_in_segment _ _ _ _ q) in H; [exact H | exact Es].
Qed.

(** X7: a query is blocked only if it mentions "transaction" or "all", in
    whatever letter case: a query in which neither word is found is safe. *)
Theorem validateNaturalLanguageQuery_keywords (q : string) (config : option SafetyConfig) :
  RegExp.test (RegExp.literal "transaction" "i") q = false ->
  RegExp.test (RegExp.literal "all" "i") q = false ->
  validateNaturalLanguageQuery q config = safe_result.
Proof.
  intros Ht Ha.
  assert (Hs : safe (validateNaturalLanguageQuery q config) <> false).
  { rewrite validateNaturalLanguageQuery_unsafe_iff.
    intros (p & Hin & Hf).
    assert (Hk : RegExp.found_in (RegExp.literal "transaction" "i") q \/
                 RegExp.found_in (RegExp.literal "all" "i") q).
    { unfold all_patterns, TRANSACTION_HISTORY_PATTERNS, dangerousPatterns in Hin.
      cbn [app In] in Hin.
      destruct Hin as [E | [E | [E | [E | [E | [E | [E | [E | [E | [E | [E | []]]]]]]]]]]];
        symmetry in E.
      - left. now apply (found_in_keyword "get.*" "transaction" ".*for.*address" p q).
      - left. now apply (found_in_keyword "" "transaction" ".*history" p q).
      - left. now apply (found_in_keyword "recent.*" "transaction" "s" p q).
      - left. now apply (found_in_keyword "last.*" "transaction" "" p q).
      - left. now apply (found_in_keyword "latest.*" "transaction" ".*on.*address" p q).
      - left. now apply (found_in_keyword "address.*" "transaction" "s" p q).
      - right. now apply (found_in_keyword "get " "all" " transactions" p q).
      - right. now apply (found_in_keyword "list " "all" "" p q).
      - right. now apply (found_in_keyword "fetch " "all" "" p q).
      - left. now apply (found_in_keyword "every " "transaction" "" p q).
      - right. now apply (found_in_keyword "" "all" ".*logs" p q). }
    destruct Hk as [Hk | Hk]; apply RegExpFacts.test_found_in in Hk; congruence. }
  unfold validateNaturalLanguageQuery in *. rewrite return_on_first_match_existsb in *.
  destruct (isTransactionHistoryQuery q); [exfalso; now apply Hs |].
  destruct (existsb _ dangerousPatterns); [exfalso; now apply Hs | reflexivity].
Qed.

Lemma validateNaturalLanguageQuery_keywords_witness :
  validateNaturalLanguageQuery "what is the balance of vitalik.eth on ethereum" None =
  safe_result.
Proof. apply validateNaturalLanguageQuery_keywords; vm_compute; reflexivity. Defined.

(** ** Lines *)

Lemma canonicalize_plain i x :
  Text.is_single (RegExp.canonicalize i x) && negb (RegExp.is_newline (RegExp.canonicalize i x)) =
  Text.is_single x && negb (RegExp.is_newline x).
Proof. destruct i; destruct x as [[] [] [] [] [] [] [] []]; vm_compute; reflexivity. Qed.

Lemma plain_byte a :
  Text.is_single a && negb (RegExp.is_newline a) = true ->
  unbroken [a] = true /\ starts_whole [a] = true.
Proof.
  destruct a as [[] [] [] [] [] [] [] []]; vm_compute; intros H;
    try discriminate H; split; reflexivity.
Qed.

(** What the first byte of a code unit can be. *)
Lemma step_start a p :
  RegExp.step RegExp.Start a = Some p ->
  RegExp.is_newline a = false /\ Text.is_continuation a = false /\
  match p with
  | RegExp.Complete | RegExp.One_left | RegExp.Two_left | RegExp.Three_left =>
      Text.is_byte 0xE2 a = false
  | RegExp.After_E2 => Text.is_byte 0xE2 a = true
  | _ => False
  end.
Proof.
  destruct a as [[] [] [] [] [] [] [] []]; vm_compute; intros H;
    try discriminate H; injection H as <-; repeat split.
Qed.

Lemma continuation_byte a :
  Text.is_continuation a = true ->
  RegExp.is_newline a = false /\ Text.is_byte 0xE2 a = false.
Proof.
  destruct a as [[] [] [] [] [] [] [] []]; vm_compute; intros H;
    try discriminate H; split; reflexivity.
Qed.

Lemma byte_0x80 a : Text.is_byte 0x80 a = true -> Text.is_continuation a = true.
Proof.
  destruct a as [[] [] [] [] [] [] [] []]; vm_compute; intros H;
    try discriminate H; reflexivity.
Qed.

(** The kinds of first byte exclude one another. *)
Lemma first_byte a :
  let kinds :=
    (Text.is_single a && negb (RegExp.is_newline a), Text.is_lead2 a,
     Text.is_lead3 a, Text.is_byte 0xE2 a, Text.is_lead4 a) in
  match RegExp.step RegExp.Start a with
  | Some RegExp.Complete => kinds = (true, false, false, false, false)
  | Some RegExp.One_left => kinds = (false, true, false, false, false)
  | Some RegExp.Two_left => kinds = (false, false, true, false, false)
  | Some RegExp.After_E2 => kinds = (false, false, true, true, false)
  | Some RegExp.Three_left => kinds = (false, false, false, false, true)
  | Some _ => False
  | None => kinds = (false, false, false, false, false)
  end.
Proof. destruct a as [[] [] [] [] [] [] [] []]; vm_compute; reflexivity. Qed.

(** [.] as the matcher reads it, byte by byte, and [.] as a set of
    words. *)
Lemma completes_dot_word w : RegExp.completes RegExp.Start w = RegExp.dot_word w.
Proof.
  destruct w as [| a w]; [reflexivity |].
  cbn [RegExp.completes]. pose proof (first_byte a) as K. cbv zeta in K.
  destruct (RegExp.step RegExp.Start a) as [[] |]; try contradiction;
    injection K as K1 K2 K3 K4 K5;
    destruct w as [| b [| c [| d [| e w]]]];
    cbn [RegExp.completes RegExp.dot_word]; unfold RegExp.step; cbv beta iota;
    rewrite ?K1, ?K2, ?K3, ?K4, ?K5; cbn [andb negb];
    repeat match goal with
           | |- context [Text.is_byte 0x80 ?x] =>
               let T := fresh "T" in
               destruct (Text.is_byte 0x80 x) eqn:T;
               [rewrite (byte_0x80 x T) |]
           end;
    repeat match goal with
           | |- context [Text.is_continuation ?x] => destruct (Text.is_continuation x)
           end;
    cbn [andb negb orb];
    repeat match goal with
           | |- context [Text.is_byte ?n ?x] => destruct (Text.is_byte n x)
           end;
    reflexivity.
Qed.

(** Runs the reading of a code unit in [H] as far as the bytes are
    known, one case for each test on a byte. *)
Ltac read_unit H :=
  repeat (cbn [RegExp.completes] in H; unfold RegExp.step in H; cbv beta iota in H;
          try discriminate H;
          match type of H with
          | context [if ?t then _ else _] => let T := fresh "T" in destruct t eqn:T
          end).

Ltac byte_facts :=
  repeat match goal with
         | T : _ && _ = true |- _ => apply andb_true_iff in T; destruct T
         | T : negb _ = true |- _ => apply negb_true_iff in T
         | T : Text.is_byte 0x80 ?b = true |- _ =>
             lazymatch goal with
             | _ : Text.is_continuation b = true |- _ => fail
             | _ => pose proof (byte_0x80 b T)
             end
         | T : Text.is_continuation ?b = true |- _ =>
             lazymatch goal with
             | _ : RegExp.is_newline b = false |- _ => fail
             | _ => destruct (continuation_byte b T)
             end
         end.

(** The bytes of a code unit that [.] matches cannot be taken for part of
    a line terminator. *)
Lemma completes_unbroken w :
  RegExp.completes RegExp.Start w = true -> unbroken w = true /\ starts_whole w = true.
Proof.
  intros H.
  destruct w as [| a w]; [discriminate H |].
  cbn [RegExp.completes] in H.
  destruct (RegExp.step RegExp.Start a) as [p |] eqn:Ea; [| discriminate H].
  destruct (step_start a p Ea) as (La & Ca & Ha). clear Ea.
  cbn [unbroken starts_whole]. rewrite La, Ca. cbn [negb andb].
  split; [| reflexivity].
  destruct p; try contradiction; rewrite Ha;
    destruct w as [| b [| c [| d [| e w]]]]; read_unit H; byte_facts; cbn [unbroken];
    repeat match goal with
           | E : ?t = _ |- context [?t] => rewrite E
           end;
    reflexivity.
Qed.

Lemma unbroken_app w1 w2 :
  unbroken w1 = true -> unbroken w2 = true -> unbroken (w1 ++ w2) = true.
Proof.
  intros H1 H2. induction w1 as [| a w1 IH]; [exact H2 |].
  cbn [unbroken app] in *.
  apply andb_true_iff in H1 as [H1 Hr]. apply andb_true_iff in H1 as [Ha He].
  rewrite Ha, (IH Hr), andb_true_r. cbn [andb].
  destruct (Text.is_byte 0xE2 a); [| reflexivity].
  destruct w1 as [| b [| c w1]]; try discriminate He. exact He.
Qed.

Lemma starts_whole_app w1 w2 :
  starts_whole w1 = true -> starts_whole w2 = true -> starts_whole (w1 ++ w2) = true.
Proof. intros H1 H2. destruct w1; [exact H2 | exact H1]. Qed.

(** A word of a pattern of ASCII literals and whole [.]s. *)
Lemma matches_unbroken i r w :
  RegExp.matches i r w ->
  line_free r = true ->
  unbroken w = true /\ starts_whole w = true.
Proof.
  induction 1 as [| c a Hc | p w Hp | r1 r2 w H IH | r1 r2 w H IH
                  | r1 r2 w1 w2 H1 IH1 H2 IH2 | r | r w1 w2 H1 IH1 H2 IH2];
    cbn [line_free]; intros L.
  - split; reflexivity.
  - apply plain_byte.
    unfold RegExp.char_matches in Hc. apply Ascii.eqb_eq in Hc.
    rewrite <- (canonicalize_plain i a), <- Hc, canonicalize_plain. exact L.
  - destruct p; try discriminate L. now apply completes_unbroken.
  - apply andb_true_iff in L as [L1 L2]. auto.
  - apply andb_true_iff in L as [L1 L2]. auto.
  - apply andb_true_iff in L as [L1 L2].
    destruct (IH1 L1), (IH2 L2). split; [now apply unbroken_app | now apply starts_whole_app].
  - split; reflexivity.
  - destruct (IH1 L), (IH2 L). split; [now apply unbroken_app | now apply starts_whole_app].
Qed.

(** Such a word, found at the start of a text with a line terminator in
    it, ends before the terminator. *)
Lemma unbroken_prefix (w after l1 l2 : list ascii) (t : string) :
  In t RegExp.LineTerminator ->
  unbroken w = true ->
  w ++ after = l1 ++ list_ascii_of_string t ++ l2 ->
  exists after', l1 = w ++ after'.
Proof.
  intros Ht. revert l1. induction w as [| x w IH]; intros l1 Hw E.
  - exists l1. reflexivity.
  - destruct l1 as [| y l1].
    + exfalso. cbn [app] in E.
      destruct Ht as [<- | [<- | [<- | [<- | []]]]]; cbn in E; injection E as -> E.
      * discriminate Hw.
      * discriminate Hw.
      * destruct w as [| b [| c w]]; try discriminate Hw.
        cbn in E. injection E as -> -> _. discriminate Hw.
      * destruct w as [| b [| c w]]; try discriminate Hw.
        cbn in E. injection E as -> -> _. discriminate Hw.
    + cbn [app] in E. injection E as -> E.
      cbn [unbroken] in Hw. apply andb_true_iff in Hw as [_ Hw].
      destruct (IH l1 Hw E) as (a' & ->). exists a'. reflexivity.
Qed.

(** Found anywhere in such a text, it lies before the terminator or after
    it. *)
Lemma unbroken_split (before w after l1 l2 : list ascii) (t : string) :
  In t RegExp.LineTerminator ->
  unbroken w = true -> starts_whole w = true ->
  before ++ w ++ after = l1 ++ list_ascii_of_string t ++ l2 ->
  (exists after', l1 = before ++ w ++ after') \/
  (exists before' after', l2 = before' ++ w ++ after').
Proof.
  intros Ht Hw Hs. revert l1. induction before as [| b before IH]; intros l1 E.
  - left. cbn [app] in E. destruct (unbroken_prefix w after l1 l2 t Ht Hw E) as (a' & ->).
    exists a'. reflexivity.
  - destruct l1 as [| y l1].
    + right. cbn [app] in E.
      destruct Ht as [<- | [<- | [<- | [<- | []]]]]; cbn in E; injection E as _ E.
      * exists before, after. auto.
      * exists before, after. auto.
      * destruct before as [| b1 [| b2 before]]; cbn in E.
        -- destruct w as [| x w]; [exists [], l2; reflexivity |].
           cbn in E. injection E as -> _. discriminate Hs.
        -- injection E as _ E.
           destruct w as [| x w]; [exists [], l2; reflexivity |].
           cbn in E. injection E as -> _. discriminate Hs.
        -- injection E as _ _ E. exists before, after. auto.
      * destruct before as [| b1 [| b2 before]]; cbn in E.
        -- destruct w as [| x w]; [exists [], l2; reflexivity |].
           cbn in E. injection E as -> _. discriminate Hs.
        -- injection E as _ E.
           destruct w as [| x w]; [exists [], l2; reflexivity |].
           cbn in E. injection E as -> _. discriminate Hs.
        -- injection E as _ _ E. exists before, after. auto.
    + cbn [app] in E. injection E as -> E.
      destruct (IH l1 E) as [(a' & ->) | (b' & a' & ->)].
      * left. exists a'. reflexivity.
      * right. exists b', a'. reflexivity.
Qed.

Lemma found_in_lines pattern q1 q2 t :
  In t RegExp.LineTerminator ->
  line_free (RegExp.source pattern) = true ->
  RegExp.found_in pattern (q1 ++ t ++ q2) <->
  RegExp.found_in pattern q1 \/ RegExp.found_in pattern q2.
Proof.
  intros Ht Hl. split.
  - intros (b & w & a & E & H).
    rewrite !list_ascii_of_string_app in E.
    destruct (matches_unbroken _ _ _ H Hl) as [Hw Hs].
    symmetry in E.
    destruct (unbroken_split b w a _ _ t Ht Hw Hs E) as [(a' & E1) | (b' & a' & E2)].
    + left. exists b, w, a'. auto.
    + right. exists b', w, a'. auto.
  - intros [H | H].
    + apply (found_in_context pattern "" q1 (t ++ q2)) in H. exact H.
    + destruct H as (b & w & a & E & H). unfold RegExp.found_in.
      exists (list_ascii_of_string q1 ++ list_ascii_of_string t ++ b), w, a.
      split; [| exact H].
      rewrite !list_ascii_of_string_app, E, <- !app_assoc. reflexivity.
Qed.

Lemma all_patterns_line_free pattern :
  In pattern all_patterns -> line_free (RegExp.source pattern) = true.
Proof.
  unfold all_patterns, TRANSACTION_HISTORY_PATTERNS, dangerousPatterns. cbn [app In].
  intros H. repeat (destruct H as [<- | H]; [vm_compute; reflexivity |]). contradiction.
Qed.

(** X8: the validator judges a query line by line.  No pattern matches
    across a line terminator (a line feed, a carriage return, a line
    separator U+2028 or a paragraph separator U+2029), so two lines joined
    by one are safe exactly when each line on its own is safe. *)
Theorem validateNaturalLanguageQuery_lines
    (q1 q2 t : string) (config : option SafetyConfig) :
  In t RegExp.LineTerminator ->
  safe (validateNaturalLanguageQuery (q1 ++ t ++ q2) config) =
  safe (validateNaturalLanguageQuery q1 config) &&
  safe (validateNaturalLanguageQuery q2 config).
Proof.
  intros Ht.
  assert (H : safe (validateNaturalLanguageQuery (q1 ++ t ++ q2) config) = false <->
              safe (validateNaturalLanguageQuery q1 config) = false \/
              safe (validateNaturalLanguageQuery q2 config) = false).
  { rewrite !validateNaturalLanguageQuery_unsafe_iff. split.
    - intros (p & Hin & Hf).
      apply (found_in_lines p q1 q2 t Ht (all_patterns_line_free p Hin)) in Hf.
      destruct Hf as [Hf | Hf]; [left | right]; exists p; auto.
    - intros [(p & Hin & Hf) | (p & Hin & Hf)]; exists p; (split; [exact Hin |]);
        apply (found_in_lines p q1 q2 t Ht (all_patterns_line_free p Hin)); auto. }
  destruct (safe (validateNaturalLanguageQuery (q1 ++ t ++ q2) config));
    destruct (safe (validateNaturalLanguageQuery q1 config));
    destruct (safe (validateNaturalLanguageQuery q2 config));
    try reflexivity; exfalso;
    first [ destruct (proj1 H eq_refl) as [E | E]; discriminate E
          | assert (E : true = false) by (apply H; auto); discriminate E ].
Qed.

(** With "all" on one line and "logs" on the next, [all.*logs] does not
    match and the query passes, here across a line separator. *)
Lemma validateNaturalLanguageQuery_lines_witness :
  safe (validateNaturalLanguageQuery ("dump all" ++ RegExp.LS ++ "logs") None) = true.
Proof.
  rewrite (validateNaturalLanguageQuery_lines "dump all" "logs" RegExp.LS None);
    [vm_compute; reflexivity | right; right; left; reflexivity].
Defined.

(** On one line the same words are blocked, whatever stands between them
    that is not a line terminator. *)
Example validateNaturalLanguageQuery_one_line :
  safe (validateNaturalLanguageQuery "dump all logs" None) = false /\
  safe (validateNaturalLanguageQuery "dump all • logs" None) = false /\
  safe (validateNaturalLanguageQuery "dump all 😀 logs" None) = false /\
  safe (validateNaturalLanguageQuery ("dump all" ++ RegExp.PS ++ "logs") None) = true /\
  safe (validateNaturalLanguageQuery ("dump all" ++ RegExp.CR ++ RegExp.LF ++ "logs") None) = true.
Proof. repeat split; vm_compute; reflexivity. Qed.

(* ===================================================================== *)
(** * The tool handlers                                                   *)
(* ===================================================================== *)

Import Handlers.

Lemma unsafe_result_fields r :
  result_invariant r = true ->
  safe r = false ->
  exists why how, r = unsafe_result why how /\ why <> ""%string /\ how <> ""%string.
Proof.
  destruct r as [s [why |] [how |]]; unfold result_invariant; cbn;
    intros Hi Hs; subst s; rewrite ?andb_false_r in Hi; try discriminate Hi.
  apply andb_true_iff in Hi as [Hw Hh].
  exists why, how. repeat split.
  - intros ->. discriminate Hw.
  - intros ->. discriminate Hh.
Qed.

(** [validateRPCCall] does not read its first argument. *)
Lemma validateRPCCall_blockchain_unread blockchain blockchain' method params config :
  validateRPCCall blockchain method params config =
  validateRPCCall blockchain' method params config.
Proof. reflexivity. Qed.

Lemma validate_call_invariant blockchain method params :
  result_invariant (validate_call blockchain method params) = true.
Proof.
  unfold validate_call. destruct method; try reflexivity. apply validateRPCCall_invariant.
Qed.

(** The answers that end a handler make no call. *)
Lemma calls_report result answers : calls (report result) answers = [].
Proof.
  unfold report. destruct (holds_bigint result); [destruct answers; reflexivity |].
  destruct result, answers; reflexivity.
Qed.

Lemma calls_show value answers : calls (show value) answers = [].
Proof. unfold show. destruct (holds_bigint value), answers; reflexivity. Qed.

Lemma calls_not_found blockchain network answers :
  calls (not_found blockchain network) answers = [].
Proof. unfold not_found. destruct (bind _ _), answers; reflexivity. Qed.

Lemma strict_eq_true_or_false v :
  strict_eq_true (or_else v (JBool false)) = strict_eq_true v.
Proof.
  unfold or_else. destruct v as [| | [] | x | z | s | l | m]; cbn [ToBoolean]; try reflexivity.
  - destruct (Number.truthy x); reflexivity.
  - destruct (negb (z =? 0)); reflexivity.
  - destruct (negb (String.eqb s "")); reflexivity.
Qed.

(** X9: [get_block_details] is blocked, before any call to the service,
    exactly when the [includeTransactions] argument is the boolean [true].
    Any other value passes the check and is handed to [getBlockDetails] as
    given ([false] standing in for a falsy one), so a truthy value that is
    not a boolean, such as the string "true", reaches the service. *)
Theorem get_block_details_gate (args : Arguments) :
  let flag := arg args "includeTransactions" in
  (flag = JBool true ->
   handleTransactionTool "get_block_details" args =
     Return (Some (blocked "⛔ UNSAFE BLOCK QUERY BLOCKED"
       (unsafe_result
          "Requesting blocks with full transactions is disabled to prevent context overflow"
          "Use eth_getBlockByNumber with false parameter to get block without transactions, or query specific transactions by hash")))) /\
  (flag <> JBool true ->
   handleTransactionTool "get_block_details" args =
     Call (getBlockDetails (arg args "blockchain") (arg args "blockNumber")
             (or_else flag (JBool false))
             (or_else (arg args "network") (JStr "mainnet")))
          report).
Proof.
  intros flag. unfold handleTransactionTool.
  cbn [String.eqb Ascii.eqb Bool.eqb]. fold flag. clearbody flag.
  split.
  - intros ->. reflexivity.
  - intros Hf.
    assert (E : checkBlockQuery "eth_getBlockByNumber"
                  [arg args "blockNumber"; or_else flag (JBool false)] None = safe_result).
    { unfold checkBlockQuery, index. cbn. rewrite strict_eq_true_or_false.
      destruct flag as [| | [] | x | z | s | l | m]; try reflexivity. contradiction. }
    rewrite E. reflexivity.
Qed.

Lemma get_block_details_gate_witness :
  handleTransactionTool "get_block_details"
    (Some (<["includeTransactions" := JStr "true"]> ∅)) =
  Call (getBlockDetails JUndefined JUndefined (JStr "true") (JStr "mainnet")) report.
Proof.
  destruct (get_block_details_gate (Some (<["includeTransactions" := JStr "true"]> ∅)))
    as [_ H].
  rewrite H; [reflexivity | vm_compute; discriminate].
Defined.

(** X10: [search_logs] never passes to the service a filter that is
    present and has neither an address nor topics: it answers with the
    blocked-query error. *)
Theorem search_logs_unrestricted_blocked (args : Arguments) :
  let filter := arg args "filter" in
  ToBoolean filter = true ->
  ToBoolean (get filter "address") = false ->
  ToBoolean (get filter "topics") = false ->
  safe (checkLogQuery [filter] None) = false /\
  handleTransactionTool "search_logs" args =
    Return (Some (blocked "⛔ UNSAFE LOG QUERY BLOCKED" (checkLogQuery [filter] None))).
Proof.
  intros filter Hf Ha Ht.
  assert (Hs : safe (checkLogQuery [filter] None) = false).
  { rewrite (checkLogQuery_present [filter] None Hf).
    change (index [filter] 0) with filter. rewrite Ha, Ht. cbn [negb andb].
    destruct (checkBlockRange _ _ _) as [r |] eqn:E; [| reflexivity].
    apply checkBlockRange_returns_unsafe in E. apply E. }
  split; [exact Hs |].
  unfold handleTransactionTool. cbn [String.eqb Ascii.eqb Bool.eqb]. fold filter.
  rewrite Hs. reflexivity.
Qed.

Lemma search_logs_unrestricted_blocked_witness :
  handleTransactionTool "search_logs"
    (Some (<["filter" := object [("fromBlock", JStr "0x1"); ("toBlock", JStr "0x2")]]> ∅)) =
  Return (Some (blocked "⛔ UNSAFE LOG QUERY BLOCKED" unrestricted_result)).
Proof.
  destruct (search_logs_unrestricted_blocked
              (Some (<["filter" := object [("fromBlock", JStr "0x1"); ("toBlock", JStr "0x2")]]> ∅)))
    as [_ E]; [reflexivity | reflexivity | reflexivity |].
  rewrite E. vm_compute. reflexivity.
Defined.

(** X11: a [search_logs] call without a filter is not checked further: the
    service is asked to search with the filter as given. *)
Theorem search_logs_without_filter_dispatched (args : Arguments) :
  ToBoolean (arg args "filter") = false ->
  handleTransactionTool "search_logs" args =
    Call (searchLogs (arg args "blockchain") (arg args "filter")
            (or_else (arg args "network") (JStr "mainnet")))
         report.
Proof.
  intros Hf. unfold handleTransactionTool. cbn [String.eqb Ascii.eqb Bool.eqb].
  unfold checkLogQuery. change (index [arg args "filter"] 0) with (arg args "filter").
  rewrite Hf. reflexivity.
Qed.

Lemma search_logs_without_filter_dispatched_witness :
  handleTransactionTool "search_logs" (Some (<["blockchain" := JStr "ethereum"]> ∅)) =
  Call (searchLogs (JStr "ethereum") JUndefined (JStr "mainnet")) report.
Proof.
  rewrite (search_logs_without_filter_dispatched (Some (<["blockchain" := JStr "ethereum"]> ∅)));
    reflexivity.
Defined.

(** X12: [call_rpc_method] on a dangerous method without a validator of
    its own is answered with the blocked-call error and the generic reason,
    whatever the other arguments; no service is looked up or called. *)
Theorem call_rpc_method_dangerous_blocked (args : Arguments) (method : string) :
  arg args "method" = JStr method ->
  isDangerousMethod method = true ->
  method <> "eth_getBlockByNumber"%string ->
  method <> "eth_getBlockByHash"%string ->
  method <> "eth_getLogs"%string ->
  handleBlockchainTool "call_rpc_method" args =
    Return (Some (blocked "⛔ UNSAFE RPC CALL BLOCKED"
      (unsafe_result
         ("Method " ++ method ++ " can return extremely large responses")
         "Use safer alternatives or fetch data from a block explorer API"))).
Proof.
  intros Hm Hd H1 H2 H3.
  unfold handleBlockchainTool. cbn [String.eqb Ascii.eqb Bool.eqb].
  rewrite Hm. unfold validate_call, validateRPCCall. rewrite Hd.
  apply isDangerousMethod_cases in Hd.
  destruct Hd as [-> | [-> | [-> | [-> | [-> | [-> | ->]]]]]];
    try contradiction; reflexivity.
Qed.

Lemma call_rpc_method_dangerous_blocked_witness :
  calls (handleBlockchainTool "call_rpc_method"
           (Some (<["method" := JStr "trace_transaction"]>
                    (<["blockchain" := JStr "ethereum"]> ∅))))
        [JObj ∅; JObj ∅] = [].
Proof.
  rewrite (call_rpc_method_dangerous_blocked _ "trace_transaction");
    [reflexivity | reflexivity | reflexivity | discriminate | discriminate | discriminate].
Defined.

(** X13: [call_rpc_method] on a method outside the dangerous set always
    looks the service up, and calls [callRPCMethod], with the identifier of
    the service, the method and the parameters ([[]] when none are given),
    exactly when the lookup finds a service. *)
Theorem call_rpc_method_dispatch (args : Arguments) (method : string) (service result : JsValue) :
  arg args "method" = JStr method ->
  isDangerousMethod method = false ->
  let blockchain := arg args "blockchain" in
  let network := or_else (arg args "network") (JStr "mainnet") in
  calls (handleBlockchainTool "call_rpc_method" args) [service; result] =
    if ToBoolean service then
      [getServiceByBlockchain blockchain network;
       callRPCMethod (get service "id") (JStr method) (or_else (arg args "params") (JArr []))]
    else [getServiceByBlockchain blockchain network].
Proof.
  intros Hm Hd blockchain network.
  unfold handleBlockchainTool. cbn [String.eqb Ascii.eqb Bool.eqb].
  rewrite Hm. unfold validate_call, validateRPCCall. rewrite Hd.
  cbn [safe safe_result negb calls].
  destruct (ToBoolean service); cbn [negb calls].
  - rewrite calls_report. reflexivity.
  - rewrite calls_not_found. reflexivity.
Qed.

Lemma call_rpc_method_dispatch_witness :
  calls (handleBlockchainTool "call_rpc_method"
           (Some (<["method" := JStr "eth_blockNumber"]>
                    (<["blockchain" := JStr "ethereum"]> ∅))))
        [object [("id", JStr "eth")]; JObj ∅] =
  [getServiceByBlockchain (JStr "ethereum") (JStr "mainnet");
   callRPCMethod (JStr "eth") (JStr "eth_blockNumber") (JArr [])].
Proof.
  rewrite (call_rpc_method_dispatch
             (Some (<["method" := JStr "eth_blockNumber"]> (<["blockchain" := JStr "ethereum"]> ∅)))
             "eth_blockNumber"); reflexivity.
Defined.

(** X14: [call_rpc_method] on one of the two block methods with parameters
    whose second element is [true] is answered with the blocked-call error
    (the check runs with the default configuration, hence the policy
    reason); no service is looked up or called. *)
Theorem call_rpc_method_full_block_blocked
    (args : Arguments) (method : string) (params : list JsValue) :
  arg args "method" = JStr method ->
  method = "eth_getBlockByNumber"%string \/ method = "eth_getBlockByHash"%string ->
  arg args "params" = JArr params ->
  index params 1 = JBool true ->
  handleBlockchainTool "call_rpc_method" args =
    Return (Some (blocked "⛔ UNSAFE RPC CALL BLOCKED"
      (unsafe_result
         "Requesting blocks with full transactions is disabled to prevent context overflow"
         "Use eth_getBlockByNumber with false parameter to get block without transactions, or query specific transactions by hash"))).
Proof.
  intros Hm Hb Hp Hi.
  unfold handleBlockchainTool. cbn [String.eqb Ascii.eqb Bool.eqb].
  rewrite Hm, Hp. unfold or_else. cbn [ToBoolean].
  unfold validate_call, validateRPCCall, checkBlockQuery. cbn [array_like].
  rewrite Hi.
  destruct Hb as [-> | ->]; reflexivity.
Qed.

Lemma call_rpc_method_full_block_blocked_witness :
  calls (handleBlockchainTool "call_rpc_method"
           (Some (<["params" := JArr [JStr "latest"; JBool true]]>
                    (<["method" := JStr "eth_getBlockByNumber"]>
                       (<["blockchain" := JStr "ethereum"]> ∅)))))
        [JObj ∅; JObj ∅] = [].
Proof.
  rewrite (call_rpc_method_full_block_blocked _ "eth_getBlockByNumber"
             [JStr "latest"; JBool true]);
    [reflexivity | reflexivity | left; reflexivity | reflexivity | reflexivity].
Defined.

(** X15: whenever a handler answers at once, without a call to its
    service, the tool is one of the four that run a safety check, and the
    answer is the blocked-query error built, under the title of that tool,
    from the verdict of the check on the arguments: that verdict is unsafe
    and carries a reason and a suggestion, both non-empty, and these are the
    texts the answer spells out.  A blocked call is never reported with a
    missing reason. *)
Theorem handlers_answer_with_reasons (name : string) (args : Arguments) (response : ToolResponse) :
  handleTransactionTool name args = Return (Some response) \/
  handleBlockchainTool name args = Return (Some response) ->
  exists title verdict why how,
    ((name = "get_block_details"%string /\ title = "⛔ UNSAFE BLOCK QUERY BLOCKED"%string /\
      verdict = checkBlockQuery "eth_getBlockByNumber"
                  [arg args "blockNumber";
                   or_else (arg args "includeTransactions") (JBool false)] None) \/
     (name = "search_logs"%string /\ title = "⛔ UNSAFE LOG QUERY BLOCKED"%string /\
      verdict = checkLogQuery [arg args "filter"] None) \/
     (name = "query_blockchain"%string /\ title = "⛔ UNSAFE QUERY BLOCKED"%string /\
      exists query, ToString (arg args "query") = Normal query /\
                    verdict = validateNaturalLanguageQuery query None) \/
     (name = "call_rpc_method"%string /\ title = "⛔ UNSAFE RPC CALL BLOCKED"%string /\
      verdict = validate_call (arg args "blockchain") (arg args "method")
                  (or_else (arg args "params") (JArr [])))) /\
    safe verdict = false /\
    reason verdict = Some why /\ suggestion verdict = Some how /\
    why <> ""%string /\ how <> ""%string /\
    response = blocked title verdict /\
    isError response = Some true /\
    text response =
      Literal (title ++ newline ++ newline ++
               "Reason: " ++ why ++ newline ++ newline ++
               "Suggestion: " ++ how ++ newline ++ newline ++
               "This protection prevents session crashes from large responses.").
Proof.
  assert (B : forall title v,
            result_invariant v = true -> safe v = false ->
            Return (Some (blocked title v)) = Return (Some response) ->
            exists why how,
              safe v = false /\
              reason v = Some why /\ suggestion v = Some how /\
              why <> ""%string /\ how <> ""%string /\
              response = blocked title v /\
              isError response = Some true /\
              text response =
                Literal (title ++ newline ++ newline ++
                         "Reason: " ++ why ++ newline ++ newline ++
                         "Suggestion: " ++ how ++ newline ++ newline ++
                         "This protection prevents session crashes from large responses.")).
  { intros title v Hi Hs [= <-].
    destruct (unsafe_result_fields v Hi Hs) as (why & how & -> & Hw & Hh).
    exists why, how. repeat split; assumption. }
  intros [H | H].
  - unfold handleTransactionTool in H.
    repeat match type of H with
           | context [String.eqb name ?s] =>
               destruct (String.eqb_spec name s) as [-> | ?]; [try discriminate H |]
           end; try discriminate H.
    + destruct (safe (checkBlockQuery _ _ _)) eqn:Hs; cbn [negb] in H; [discriminate H |].
      destruct (B _ _ (checkBlockQuery_invariant _ _ _) Hs H) as (why & how & R).
      eexists _, _, why, how. split; [left; repeat split | exact R].
    + destruct (safe (checkLogQuery _ _)) eqn:Hs; cbn [negb] in H; [discriminate H |].
      destruct (B _ _ (checkLogQuery_invariant _ _) Hs H) as (why & how & R).
      eexists _, _, why, how. split; [right; left; repeat split | exact R].
  - unfold handleBlockchainTool in H.
    repeat match type of H with
           | context [String.eqb name ?s] =>
               destruct (String.eqb_spec name s) as [-> | ?];
               [try discriminate H; try (destruct (ToBoolean _); discriminate H) |]
           end; try discriminate H.
    + destruct (ToString (arg args "query")) as [query | e] eqn:Eq; [| discriminate H].
      destruct (safe (validateNaturalLanguageQuery _ _)) eqn:Hs; cbn [negb] in H;
        [discriminate H |].
      destruct (B _ _ (validateNaturalLanguageQuery_invariant _ _) Hs H) as (why & how & R).
      eexists _, _, why, how.
      split; [right; right; left; repeat split; eauto | exact R].
    + destruct (safe (validate_call _ _ _)) eqn:Hs; cbn [negb] in H; [discriminate H |].
      destruct (B _ _ (validate_call_invariant _ _ _) Hs H) as (why & how & R).
      eexists _, _, why, how. split; [right; right; right; repeat split | exact R].
Qed.

Lemma handlers_answer_with_reasons_witness :
  exists title verdict why how,
    safe verdict = false /\
    reason verdict = Some why /\ suggestion verdict = Some how /\
    why <> ""%string /\ how <> ""%string /\
    blocked "⛔ UNSAFE QUERY BLOCKED" (validateNaturalLanguageQuery "list all logs" None) =
      blocked title verdict.
Proof.
  destruct (handlers_answer_with_reasons "query_blockchain"
              (Some (<["query" := JStr "list all logs"]> ∅))
              (blocked "⛔ UNSAFE QUERY BLOCKED"
                 (validateNaturalLanguageQuery "list all logs" None)))
    as (title & verdict & why & how & _ & Hs & Hr & Hg & Hw & Hh & Hb & _).
  - right. vm_compute. reflexivity.
  - exists title, verdict, why, how. repeat split; assumption.
Defined.

(** X16: [query_blockchain] converts the query to a String.  When the
    conversion throws, the handler throws and the service is not called.
    Otherwise it calls [executeQuery], with the query as given, exactly when
    none of the eleven patterns is found in the text of the query; when one
    is found it answers with the blocked-query error, without calling the
    service. *)
Theorem query_blockchain_gate (args : Arguments) :
  let query := arg args "query" in
  let handler := handleBlockchainTool "query_blockchain" args in
  match ToString query with
  | Throw e => handler = Raise e /\ unconvertible query = true
  | Normal text =>
      unconvertible query = false /\
      ((exists pattern, In pattern all_patterns /\ RegExp.found_in pattern text) ->
       handler = Return (Some (blocked "⛔ UNSAFE QUERY BLOCKED"
                                 (validateNaturalLanguageQuery text None))) /\
       forall answers, calls handler answers = []) /\
      ((forall pattern, In pattern all_patterns -> ~ RegExp.found_in pattern text) ->
       handler = Call (executeQuery query) report)
  end.
Proof.
  intros query handler. subst handler.
  unfold handleBlockchainTool. cbn [String.eqb Ascii.eqb Bool.eqb]. fold query.
  destruct (ToString query) as [text | []] eqn:Eq.
  - split; [| split].
    + destruct (unconvertible query) eqn:U; [| reflexivity].
      apply ToString_unconvertible in U. congruence.
    + intros Hp.
      apply (validateNaturalLanguageQuery_unsafe_iff text None) in Hp.
      rewrite Hp. split; [reflexivity |]. intros answers. destruct answers; reflexivity.
    + intros Hn.
      destruct (safe (validateNaturalLanguageQuery text None)) eqn:Hs; [reflexivity |].
      apply validateNaturalLanguageQuery_unsafe_iff in Hs as (p & Hin & Hf).
      exfalso. exact (Hn p Hin Hf).
  - split; [reflexivity |]. now apply ToString_unconvertible.
Qed.

(** A call without a query passes: the patterns are tried on the text
    "undefined". *)
Lemma query_blockchain_gate_witness :
  handleBlockchainTool "query_blockchain" None = Call (executeQuery JUndefined) report.
Proof.
  apply (query_blockchain_gate None).
  intros pattern Hin Hf.
  assert (H : safe (validateNaturalLanguageQuery "undefined" None) = false)
    by (apply validateNaturalLanguageQuery_unsafe_iff; eauto).
  vm_compute in H. discriminate H.
Defined.

(** A query that is an object with an own [toString] ends the handler
    with a TypeError. *)
Example query_blockchain_unconvertible :
  handleBlockchainTool "query_blockchain"
    (Some (<["query" := object [("toString", JNum (Number.of_Z 1))]]> ∅)) =
  Raise TypeError.
Proof. vm_compute. reflexivity. Qed.

(** X17: the handlers and the registries agree on the tool names: a
    handler answers [null] at once exactly for the names its registry does
    not list. *)
Theorem registered_tools_are_handled (name : string) (args : Arguments) :
  (handleTransactionTool name args = Return None <->
   ~ In name (List.map Registry.name Registry.registerTransactionHandlers)) /\
  (handleBlockchainTool name args = Return None <->
   ~ In name (List.map Registry.name Registry.registerBlockchainHandlers)).
Proof.
  split.
  - unfold handleTransactionTool.
    cbn [List.map Registry.name Registry.registerTransactionHandlers In].
    repeat match goal with
           | |- context [String.eqb name ?s] =>
               destruct (String.eqb_spec name s) as [-> | ?];
               [split; [intros H; try discriminate H;
                        repeat match type of H with
                               | (if ?b then _ else _) = _ => destruct b; try discriminate H
                               | match ?c with Normal _ => _ | Throw _ => _ end = _ =>
                                   destruct c; try discriminate H
                               end
                       | intros H; exfalso; apply H; tauto] |]
           end.
    split; [intros _ H; intuition congruence | reflexivity].
  - unfold handleBlockchainTool.
    cbn [List.map Registry.name Registry.registerBlockchainHandlers In].
    repeat match goal with
           | |- context [String.eqb name ?s] =>
               destruct (String.eqb_spec name s) as [-> | ?];
               [split; [intros H; try discriminate H;
                        repeat match type of H with
                               | (if ?b then _ else _) = _ => destruct b; try discriminate H
                               | match ?c with Normal _ => _ | Throw _ => _ end = _ =>
                                   destruct c; try discriminate H
                               end
                       | intros H; exfalso; apply H; tauto] |]
           end.
    split; [intros _ H; intuition congruence | reflexivity].
Qed.

(* ===================================================================== *)
(** * More on the range check and the configuration                       *)
(* ===================================================================== *)

Import Bounds.

(** X18: the range check answers "Unable to validate block range safety"
    exactly when it runs (both bounds truthy, [toBlock] not ['latest']) and
    the subtraction throws: a bound is an object with an own [toString]
    property, or an array holding one, which cannot be converted to a
    primitive, or exactly one of the two bounds is a BigInt.  No string
    leads there, whatever it spells. *)
Theorem checkBlockRange_unable_iff (fromBlock toBlock : JsValue) (config : SafetyConfig) :
  (checkBlockRange fromBlock toBlock config = Some unable_result <->
   ToBoolean fromBlock && ToBoolean toBlock && negb (strict_eq_string toBlock "latest")
     && (unconvertible fromBlock || unconvertible toBlock
         || xorb (is_bigint fromBlock) (is_bigint toBlock)) = true) /\
  (is_string fromBlock = true -> is_string toBlock = true ->
   checkBlockRange fromBlock toBlock config <> Some unable_result).
Proof.
  assert (M : checkBlockRange fromBlock toBlock config = Some unable_result <->
              ToBoolean fromBlock && ToBoolean toBlock
                && negb (strict_eq_string toBlock "latest")
                && (unconvertible fromBlock || unconvertible toBlock
                    || xorb (is_bigint fromBlock) (is_bigint toBlock)) = true).
  { rewrite checkBlockRange_read.
    destruct (ToBoolean fromBlock && ToBoolean toBlock
              && negb (strict_eq_string toBlock "latest")); cbn [andb];
      [| split; discriminate].
    pose proof (subtract_throws (read toBlock) (read fromBlock)) as T.
    rewrite !read_unconvertible, !read_is_bigint in T.
    replace (unconvertible fromBlock || unconvertible toBlock
             || xorb (is_bigint fromBlock) (is_bigint toBlock))
      with (unconvertible toBlock || unconvertible fromBlock
            || xorb (is_bigint toBlock) (is_bigint fromBlock))
      by (destruct (unconvertible fromBlock), (unconvertible toBlock),
                   (is_bigint fromBlock), (is_bigint toBlock); reflexivity).
    destruct (subtract _ _) as [range | e].
    - split.
      + destruct (greaterThan range (maxBlockRange config)); intros H; discriminate H.
      + intros H. apply T in H as [e H]. discriminate H.
    - split; [intros _; apply T; eauto | reflexivity]. }
  split; [exact M |].
  intros Hf Ht H. apply M in H.
  destruct fromBlock; try discriminate Hf. destruct toBlock; try discriminate Ht.
  cbn in H. rewrite !andb_false_r in H. discriminate H.
Qed.

(** The bound [{ "toString": 1 }] of a JSON filter leads there. *)
Example checkBlockRange_unconvertible_bound :
  checkLogQuery
    [object [("fromBlock", object [("toString", JNum (Number.of_Z 1))]);
             ("toBlock", JNum (Number.of_Z 5)); ("address", JStr "0xabc")]] None =
  unable_result.
Proof. vm_compute. reflexivity. Qed.

(** X19: on a filter with two Number bounds and an address or topics,
    the verdict is unsafe exactly when both bounds are truthy (neither 0
    nor [NaN]) and [to - from] exceeds [maxBlockRange]; the reason then
    states the range and the ceiling. *)
Theorem checkLogQuery_range_of_numbers
    (params : list JsValue) (config : option SafetyConfig) (from to : number) :
  let filter := index params 0 in
  let ceiling := maxBlockRange (or_default config) in
  ToBoolean filter = true ->
  get filter "fromBlock" = JNum from ->
  get filter "toBlock" = JNum to ->
  ToBoolean (get filter "address") || ToBoolean (get filter "topics") = true ->
  (safe (checkLogQuery params config) = false <->
   Number.truthy from && Number.truthy to
     && Number.lessThan ceiling (Number.subtract to from) = true) /\
  (safe (checkLogQuery params config) = false ->
   reason (checkLogQuery params config) =
     Some ("Block range " ++ Number.toString (Number.subtract to from)
             ++ " exceeds maximum " ++ Number.toString ceiling)%string).
Proof.
  intros filter ceiling Hf Hfrom Hto Hr.
  rewrite (checkLogQuery_number_bounds params config from to Hf Hfrom Hto Hr).
  cbv zeta. fold ceiling.
  destruct (Number.truthy from && Number.truthy to
            && Number.lessThan ceiling (Number.subtract to from)).
  - split; [split; reflexivity | reflexivity].
  - split; [split; discriminate | discriminate].
Qed.

Lemma checkLogQuery_range_of_numbers_witness :
  reason (checkLogQuery
            [object [("fromBlock", JNum (Number.of_Z 7)); ("toBlock", JNum (Number.of_Z 30));
                     ("address", JStr "0xabc")]]
            None) =
  Some "Block range 23 exceeds maximum 10"%string.
Proof.
  destruct (checkLogQuery_range_of_numbers
              [object [("fromBlock", JNum (Number.of_Z 7)); ("toBlock", JNum (Number.of_Z 30));
                       ("address", JStr "0xabc")]]
              None (Number.of_Z 7) (Number.of_Z 30)) as [_ H];
    [reflexivity | reflexivity | reflexivity | reflexivity |].
  rewrite H; reflexivity.
Defined.

(** X20: a string bound that [parseInt] cannot read never blocks a log
    query and never yields the cannot-validate answer: when either string
    bound parses to [NaN], the verdict is the one the address and the
    topics alone decide, whatever the other bound and the ceiling. *)
Theorem checkLogQuery_unreadable_bound
    (params : list JsValue) (config : option SafetyConfig) (from to : string) :
  let filter := index params 0 in
  ToBoolean filter = true ->
  get filter "fromBlock" = JStr from ->
  get filter "toBlock" = JStr to ->
  Text.parseInt from 16 = Number.NaN \/ Text.parseInt to 16 = Number.NaN ->
  checkLogQuery params config =
    if ToBoolean (get filter "address") || ToBoolean (get filter "topics")
    then safe_result
    else unrestricted_result.
Proof.
  intros filter Hf Hfrom Hto Hnan.
  rewrite (checkLogQuery_unparseable_bound params config from to Hf Hfrom Hto Hnan).
  fold filter.
  destruct (ToBoolean (get filter "address")), (ToBoolean (get filter "topics")); reflexivity.
Qed.

Lemma checkLogQuery_unreadable_bound_witness :
  checkLogQuery
    [object [("fromBlock", JStr "0x10"); ("toBlock", JStr "pending");
             ("address", JStr "0xabc")]] None =
  safe_result.
Proof.
  rewrite (checkLogQuery_unreadable_bound _ None "0x10" "pending");
    [reflexivity | reflexivity | reflexivity | reflexivity | right; reflexivity].
Defined.

(** X22: the filter requirement is a test of truthiness: an address or a
    topics value that is an array or an object, even an empty one, satisfies
    it.  With such a value the verdict is the one of the range check: the
    query is safe when that check lets control through, and blocked with
    the answer of the check otherwise. *)
Theorem checkLogQuery_empty_constraint_passes
    (params : list JsValue) (config : option SafetyConfig) :
  let filter := index params 0 in
  let range_check :=
    checkBlockRange (get filter "fromBlock")
      (or_else (get filter "toBlock") (JStr "latest")) (or_default config) in
  ToBoolean filter = true ->
  (exists elements, get filter "address" = JArr elements \/ get filter "topics" = JArr elements) \/
  (exists properties, get filter "address" = JObj properties \/ get filter "topics" = JObj properties) ->
  (range_check = None -> checkLogQuery params config = safe_result) /\
  (forall result, range_check = Some result ->
     checkLogQuery params config = result /\ safe result = false).
Proof.
  intros filter range_check Hf Hc.
  rewrite (checkLogQuery_present params config Hf). fold filter. fold range_check.
  assert (Hn : negb (ToBoolean (get filter "address"))
               && negb (ToBoolean (get filter "topics")) = false)
    by (destruct Hc as [(l & [-> | ->]) | (m & [-> | ->])]; cbn [ToBoolean negb andb];
        rewrite ?andb_false_r; reflexivity).
  rewrite Hn. split.
  - intros ->. reflexivity.
  - intros result E. rewrite E. split; [reflexivity |].
    apply checkBlockRange_returns_unsafe in E. apply E.
Qed.

Lemma checkLogQuery_empty_constraint_passes_witness :
  checkLogQuery [object [("fromBlock", JStr "0x0"); ("topics", JArr [])]] None = safe_result.
Proof.
  destruct (checkLogQuery_empty_constraint_passes
              [object [("fromBlock", JStr "0x0"); ("topics", JArr [])]] None)
    as [H _]; [reflexivity | left; exists []; right; reflexivity |].
  apply H. reflexivity.
Defined.

(** An empty list of topics does not make up for a bound the range check
    cannot subtract: the check answers, and the query is blocked. *)
Example checkLogQuery_empty_topics_unconvertible_bound :
  checkLogQuery
    [object [("fromBlock", object [("toString", JNum (Number.of_Z 1))]);
             ("toBlock", JNum (Number.of_Z 5)); ("topics", JArr [])]] None = unable_result.
Proof. vm_compute. reflexivity. Qed.

(** X21: of the four settings, [maxTransactionsPerBlock] and
    [maxResponseSizeEstimate] are never read: two configurations that agree
    on [maxBlockRange] and [allowBlocksWithTransactions] give the same
    result at every entry point; and whether [validateRPCCall] answers safe
    depends on [maxBlockRange] alone. *)
Theorem unused_settings
    (blockchain method query : string) (params : list JsValue) (c c' : SafetyConfig) :
  maxBlockRange c = maxBlockRange c' ->
  (allowBlocksWithTransactions c = allowBlocksWithTransactions c' ->
   validateRPCCall blockchain method params (Some c) =
     validateRPCCall blockchain method params (Some c') /\
   checkBlockQuery method params (Some c) = checkBlockQuery method params (Some c') /\
   checkLogQuery params (Some c) = checkLogQuery params (Some c') /\
   validateNaturalLanguageQuery query (Some c) = validateNaturalLanguageQuery query (Some c')) /\
  safe (validateRPCCall blockchain method params (Some c)) =
    safe (validateRPCCall blockchain method params (Some c')).
Proof.
  intros Hr.
  assert (Hrange : forall f t, checkBlockRange f t c = checkBlockRange f t c')
    by (intros f t; unfold checkBlockRange; rewrite Hr; reflexivity).
  assert (Hlog : checkLogQuery params (Some c) = checkLogQuery params (Some c'))
    by (unfold checkLogQuery; change (or_default (Some c)) with c;
        change (or_default (Some c')) with c'; rewrite Hrange; reflexivity).
  assert (Hblock : safe (checkBlockQuery method params (Some c)) =
                   safe (checkBlockQuery method params (Some c'))).
  { unfold checkBlockQuery.
    change (or_default (Some c)) with c. change (or_default (Some c')) with c'.
    destruct (String.eqb method "eth_getBlockByNumber" || String.eqb method "eth_getBlockByHash");
      [| reflexivity].
    destruct (strict_eq_true (index params 1));
      destruct (allowBlocksWithTransactions c), (allowBlocksWithTransactions c'); reflexivity. }
  split.
  - intros Ha.
    assert (Hb : checkBlockQuery method params (Some c) = checkBlockQuery method params (Some c'))
      by (unfold checkBlockQuery; change (or_default (Some c)) with c;
          change (or_default (Some c')) with c'; rewrite Ha; reflexivity).
    repeat split; try assumption; try reflexivity.
    unfold validateRPCCall.
    change (or_default (Some c)) with c. change (or_default (Some c')) with c'.
    rewrite Hb, Hlog. reflexivity.
  - unfold validateRPCCall.
    change (or_default (Some c)) with c. change (or_default (Some c')) with c'.
    destruct (isDangerousMethod method); [| reflexivity].
    destruct (String.prefix "eth_getBlock" method); [exact Hblock |].
    destruct (String.eqb method "eth_getLogs"); [rewrite Hlog |]; reflexivity.
Qed.

Lemma unused_settings_witness :
  safe (validateRPCCall "ethereum" "eth_getBlockByNumber" [JStr "latest"; JBool true]
          (Some DEFAULT_SAFETY_CONFIG)) =
  safe (validateRPCCall "ethereum" "eth_getBlockByNumber" [JStr "latest"; JBool true]
          (Some {| maxTransactionsPerBlock := Number.of_Z 1000;
                   maxBlockRange := Number.of_Z 10;
                   maxResponseSizeEstimate := Number.of_Z 100000;
                   allowBlocksWithTransactions := true |})).
Proof.
  exact (proj2 (unused_settings "ethereum" "eth_getBlockByNumber" ""
                  [JStr "latest"; JBool true] DEFAULT_SAFETY_CONFIG _ eq_refl)).
Defined.

(** X23: an open-ended range is not limited.  When [toBlock] is missing or
    ['latest'] and the filter has an address or topics, the query is safe
    whatever [fromBlock] is, block 0 included, and whatever the ceiling. *)
Theorem checkLogQuery_open_range_passes
    (params : list JsValue) (config : option SafetyConfig) :
  let filter := index params 0 in
  ToBoolean filter = true ->
  ToBoolean (get filter "toBlock") = false \/ get filter "toBlock" = JStr "latest" ->
  ToBoolean (get filter "address") || ToBoolean (get filter "topics") = true ->
  checkLogQuery params config = safe_result.
Proof.
  intros filter Hf Ht Hr.
  rewrite (checkLogQuery_present params config Hf). fold filter.
  rewrite (checkBlockRange_skipped_latest _ _ _ Ht).
  apply orb_true_iff in Hr.
  destruct Hr as [-> | ->]; cbn [negb andb]; rewrite ?andb_false_r; reflexivity.
Qed.

Lemma checkLogQuery_open_range_passes_witness :
  checkLogQuery
    [object [("fromBlock", JStr "0x0"); ("toBlock", JStr "latest"); ("address", JStr "0xabc")]]
    None = safe_result.
Proof.
  apply (checkLogQuery_open_range_passes
           [object [("fromBlock", JStr "0x0"); ("toBlock", JStr "latest");
                    ("address", JStr "0xabc")]] None);
    [reflexivity | right; reflexivity | reflexivity].
Defined.
